(** * run-analyze.py: the chunked scan-and-classify pass

    A shallow embedding of [find_date_patterns], [analyze_chunk] and the
    read loop of [analyze_binary_file], followed by the properties of the
    three scanners and of the file walker.

    Python [bytes] are lists of [Byte.byte]; Python integers are [Z];
    uncaught exceptions are an explicit result; the open file is a value
    with a read position. *)

From Stdlib Require Import ZArith List Bool Lia String Ascii.
From Stdlib Require Import Strings.Byte Numbers.DecimalString.
From Stdlib Require Import Sorting.Sorted.
From Stdlib Require Numbers.HexadecimalString.
From Stdlib Require Import Sorting.Permutation.
Import ListNotations.

Local Open Scope Z_scope.

(** ** Python values *)

Definition bytes := list byte.

(** The integer value of one element of a [bytes] object. *)
Definition byte_val (b : byte) : Z := Z.of_N (Byte.to_N b).

(** [len(x)] *)
Definition len {A : Type} (l : list A) : Z := Z.of_nat (List.length l).

(** Normalisation of one bound of a slice [x[a:b]] against the length:
    a negative bound counts from the end, and both are clamped. *)
Definition slice_index (n i : Z) : Z :=
  if i <? 0 then Z.max (i + n) 0 else Z.min i n.

(** [l[a:b]] for integers [a] and [b]; never raises. *)
Definition py_slice {A : Type} (l : list A) (a b : Z) : list A :=
  let a' := slice_index (len l) a in
  let b' := slice_index (len l) b in
  firstn (Z.to_nat (b' - a')) (skipn (Z.to_nat a') l).

(** [range(stop)] *)
Definition range (stop : Z) : list Z :=
  map Z.of_nat (seq 0 (Z.to_nat stop)).

(** [range(start, stop, step)] for a positive [step]: the values
    [start + k * step] below [stop]. *)
Definition range_step (start stop step : Z) : list Z :=
  map (fun k => start + Z.of_nat k * step)
      (seq 0 (Z.to_nat ((stop - start + step - 1) / step))).

(** ** Exceptions *)

Inductive exn : Type :=
| StructError        (* struct.error: buffer of the wrong size *)
| OverflowError      (* timestamp out of range for the platform time_t *)
| OSError            (* failing C call, missing or unreadable file *)
| ValueError.        (* year out of range *)

(** What a call does: it returns a value or raises. *)
Inductive result (A : Type) : Type :=
| Ok (a : A)
| Raise (e : exn).

Arguments Ok {A} a.
Arguments Raise {A} e.

Definition bind {A B : Type} (m : result A) (k : A -> result B) : result B :=
  match m with
  | Ok a => k a
  | Raise e => Raise e
  end.

Notation "x <- m ;; k" := (bind m (fun x => k))
  (at level 61, m at next level, right associativity).

(** [try: body except: handler], with the bare [except:] of the source,
    which catches every exception. *)
Definition try_except {A : Type} (body : result A) (handler : A) : result A :=
  match body with
  | Ok a => Ok a
  | Raise _ => Ok handler
  end.

(** ** struct.unpack *)

(** The little-endian unsigned value of a byte string. *)
Fixpoint le_decode (bs : bytes) : Z :=
  match bs with
  | [] => 0
  | b :: rest => byte_val b + 256 * le_decode rest
  end.

(** [struct.unpack(fmt, buf)[0]] for a format of one unsigned little-endian
    field of [size] bytes: the buffer must have exactly that size. *)
Definition unpack_le (size : Z) (buf : bytes) : result Z :=
  if len buf =? size then Ok (le_decode buf) else Raise StructError.

(** ['<I'] and ['<H'] *)
Definition unpack_I : bytes -> result Z := unpack_le 4.
Definition unpack_H : bytes -> result Z := unpack_le 2.

(** ** datetime *)

Record datetime : Type := mk_datetime {
  year : Z; month : Z; day : Z; hour : Z; minute : Z; second : Z
}.

(** Decimal rendering of an integer, as in [f"{n}"]. *)
Definition str_int (n : Z) : string := NilZero.string_of_int (Z.to_int n).

(** Left padding with zeros to a width, as in ["%02d"] and ["%04d"], for
    the non-negative fields of a date. *)
Fixpoint zeros (k : nat) (s : string) : string :=
  match k with
  | O => s
  | S k' => zeros k' (String "0" s)
  end.

Definition zfill (width : nat) (s : string) : string :=
  zeros (width - String.length s) s.

Definition pad (width : nat) (n : Z) : string := zfill width (str_int n).

(** [str(date)] for a datetime without microseconds:
    [YYYY-MM-DD HH:MM:SS]. *)
Definition str_datetime (d : datetime) : string :=
  (pad 4 (year d) ++ "-" ++ pad 2 (month d) ++ "-" ++ pad 2 (day d) ++ " " ++
   pad 2 (hour d) ++ ":" ++ pad 2 (minute d) ++ ":" ++ pad 2 (second d))%string.

(** ** Findings *)

Definition date_pattern : Type := (Z * string)%type.

(** One entry of ['text_regions']. *)
Module region.
Record t : Type := mk { offset : Z; length : Z; text : string }.
End region.

(** The dictionary [chunk_stats] of [analyze_chunk]. *)
Module chunk_stats.
Record t : Type := mk {
  date_patterns : list date_pattern;
  record_starts : list Z;
  text_regions : list region.t
}.
End chunk_stats.

(** [collections.Counter]: a dictionary from keys to counts, in insertion
    order; a key that is absent counts for 0. *)
Definition Counter : Type := list (Z * Z).

Fixpoint counter_incr (c : Counter) (k : Z) : Counter :=
  match c with
  | [] => [(k, 1)]
  | (k', n) :: rest =>
      if k' =? k then (k', n + 1) :: rest else (k', n) :: counter_incr rest k
  end.

(** [c.update(iterable)] *)
Definition counter_update (c : Counter) (keys : list Z) : Counter :=
  fold_left counter_incr keys c.


(** The dictionary [stats] of [analyze_binary_file]. *)
Module stats.
Record t : Type := mk {
  file_size : Z;
  date_patterns : list date_pattern;
  record_starts : list Z;
  text_regions : list region.t;
  record_sizes : Counter
}.
End stats.

(** ** Byte tests *)

Fixpoint bytes_eqb (x y : bytes) : bool :=
  match x, y with
  | [], [] => true
  | a :: x', b :: y' => Byte.eqb a b && bytes_eqb x' y'
  | _, _ => false
  end.

(** An ASCII letter or digit. *)
Definition byte_isalnum (b : byte) : bool :=
  let c := byte_val b in
  ((48 <=? c) && (c <=? 57)) || ((65 <=? c) && (c <=? 90)) ||
  ((97 <=? c) && (c <=? 122)).

(** [bytes.isalnum()]: not empty, and every byte an ASCII letter or digit. *)
Definition isalnum (bs : bytes) : bool :=
  match bs with
  | [] => false
  | _ => forallb byte_isalnum bs
  end.

(** The test of the text scan:
    [32 <= byte <= 126 or byte in (9, 10, 13)]. *)
Definition is_text_byte (b : byte) : bool :=
  let c := byte_val b in
  ((32 <=? c) && (c <=? 126)) || ((c =? 9) || (c =? 10) || (c =? 13)).

(** [chr(byte)] *)
Definition chr (b : byte) : ascii := ascii_of_byte b.

(** [''.join(...)] over characters. *)
Definition join (cs : list ascii) : string := string_of_list_ascii cs.

(** ** find_date_patterns *)

Definition timestamp_desc (date : datetime) : string :=
  ("Possible Unix timestamp: " ++ str_datetime date)%string.

Definition year_desc (y : Z) : string :=
  ("Possible year: " ++ str_int y)%string.

Section Platform.

(** [datetime.fromtimestamp]: the local date of a count of seconds since the
    epoch, or the exception the platform raises for it. It belongs to the
    Python library and depends on the platform and its time zone, so the
    scanner is embedded over an arbitrary one. *)
Variable fromtimestamp : Z -> result datetime.

Definition find_date_patterns (data : bytes) (offset : Z) : result (list date_pattern) :=
  let potential_dates := [] in
  potential_dates <-
    (if offset + 4 <=? len data then
       unix_timestamp <- unpack_I (py_slice data offset (offset + 4)) ;;
       if (0 <? unix_timestamp) && (unix_timestamp <? 0xFFFFFFFF) then
         try_except
           (date <- fromtimestamp unix_timestamp ;;
            if (1900 <? year date) && (year date <? 2100)
            then Ok (potential_dates ++ [(offset, timestamp_desc date)])
            else Ok potential_dates)
           potential_dates
       else Ok potential_dates
     else Ok potential_dates) ;;
  potential_dates <-
    (if offset + 2 <=? len data then
       y <- unpack_H (py_slice data offset (offset + 2)) ;;
       if (1800 <? y) && (y <? 2100)
       then Ok (potential_dates ++ [(offset, year_desc y)])
       else Ok potential_dates
     else Ok potential_dates) ;;
  Ok potential_dates.


(** ** analyze_chunk *)

(** The first loop: [find_date_patterns] at every fourth position below
    [len(data) - 8], the offsets it returns shifted by [base_offset]. *)
Fixpoint date_loop (data : bytes) (base_offset : Z) (positions : list Z)
  (date_patterns : list date_pattern) : result (list date_pattern) :=
  match positions with
  | [] => Ok date_patterns
  | i :: rest =>
      dates <- find_date_patterns data i ;;
      date_loop data base_offset rest
        (match dates with
         | [] => date_patterns
         | _ => date_patterns ++
                map (fun '(offset, desc) => (base_offset + offset, desc)) dates
         end)
  end.

(** The test of the second loop at position [i]: four null bytes followed
    by four alphanumeric ones. It does not depend on the platform. *)
Definition record_signature (data : bytes) (i : Z) : bool :=
  bytes_eqb (py_slice data i (i + 4)) [x00; x00; x00; x00] &&
  isalnum (py_slice data (i + 4) (i + 8)).

(** The second loop, over [range(len(data) - 8)]. *)
Fixpoint record_loop (data : bytes) (base_offset : Z) (positions : list Z)
  (record_starts : list Z) : list Z :=
  match positions with
  | [] => record_starts
  | i :: rest =>
      record_loop data base_offset rest
        (if record_signature data i
         then record_starts ++ [base_offset + i]
         else record_starts)
  end.

(** The variables of the third loop: the open run [text_region], the
    position [current_pos] and the regions found so far. *)
Record text_state : Type := mk_text_state {
  text_region : list (Z * ascii);
  current_pos : Z;
  found_regions : list region.t
}.

(** One turn of the third loop, for one byte of the chunk. *)
Definition text_step (base_offset : Z) (st : text_state) (byte : byte) : text_state :=
  let text_region := text_region st in
  let current_pos := current_pos st in
  let text_regions := found_regions st in
  if is_text_byte byte then
    mk_text_state (text_region ++ [(current_pos, chr byte)]) (current_pos + 1)
                  text_regions
  else
    match text_region with
    | [] => mk_text_state text_region (current_pos + 1) text_regions
    | first :: _ =>
        mk_text_state [] (current_pos + 1)
          (if 4 <? len text_region then
             text_regions ++
             [region.mk (base_offset + fst first) (len text_region)
                        (join (map snd text_region))]
           else text_regions)
    end.

(** The third loop, [for byte in data]; the run that is open when the
    bytes are exhausted is not looked at again. *)
Definition text_loop (base_offset : Z) (data : bytes) : list region.t :=
  found_regions (fold_left (text_step base_offset) data (mk_text_state [] 0 [])).

Definition analyze_chunk (data : bytes) (base_offset : Z) : result chunk_stats.t :=
  date_patterns <-
    date_loop data base_offset (range_step 0 (len data - 8) 4) [] ;;
  let record_starts :=
    record_loop data base_offset (range (len data - 8)) [] in
  let text_regions := text_loop base_offset data in
  Ok (chunk_stats.mk date_patterns record_starts text_regions).

(** ** analyze_binary_file *)

(** A file opened with [open(filepath, 'rb')]: the bytes of the file and
    the position of the next read. *)
Record file : Type := mk_file { contents : bytes; position : Z }.

(** [f.read(size)]: at most [size] bytes from the position, all the rest
    for a negative [size]; the position moves past what was read. *)
Definition read (f : file) (size : Z) : bytes * file :=
  let rest := skipn (Z.to_nat (position f)) (contents f) in
  let chunk := if size <? 0 then rest else firstn (Z.to_nat size) rest in
  (chunk, mk_file (contents f) (position f + len chunk)).

(** [f.seek(pos)] *)
Definition seek (f : file) (pos : Z) : file := mk_file (contents f) pos.

(** The files of the machine, by path. *)
Definition filesystem : Type := string -> option bytes.

(** [os.path.getsize(filepath)] *)
Definition getsize (fs : filesystem) (filepath : string) : result Z :=
  match fs filepath with
  | Some content => Ok (len content)
  | None => Raise OSError
  end.

(** [open(filepath, 'rb')] *)
Definition open_rb (fs : filesystem) (filepath : string) : result file :=
  match fs filepath with
  | Some content => Ok (mk_file content 0)
  | None => Raise OSError
  end.

(** The list comprehension over [range(len(record_starts) - 1)]. *)
Definition distances (record_starts : list Z) : list Z :=
  map (fun i => nth (Z.to_nat (i + 1)) record_starts 0 -
                nth (Z.to_nat i) record_starts 0)
      (range (len record_starts - 1)).

(** The merge of one chunk's statistics into the overall ones, and the
    update of the histogram of distances. *)
Definition merge_chunk (st : stats.t) (cs : chunk_stats.t) : stats.t :=
  let date_patterns := stats.date_patterns st ++ chunk_stats.date_patterns cs in
  let record_starts := stats.record_starts st ++ chunk_stats.record_starts cs in
  let text_regions := stats.text_regions st ++ chunk_stats.text_regions cs in
  let record_sizes :=
    if 1 <? len (chunk_stats.record_starts cs)
    then counter_update (stats.record_sizes st)
                        (distances (chunk_stats.record_starts cs))
    else stats.record_sizes st in
  stats.mk (stats.file_size st) date_patterns record_starts text_regions
           record_sizes.

(** The [while current_offset < file_size] loop. Each turn that does not
    leave the loop reads at least one byte, so [fuel] bounds the turns;
    [None] stands for a bound that was too small, and is no behaviour of
    the program. The counter [chunks_processed] only drives a progress
    message and is left out with the printing. *)
Fixpoint scan_loop (chunk_size file_size : Z) (fuel : nat) (f : file)
  (current_offset : Z) (st : stats.t) : option (result stats.t) :=
  match fuel with
  | O => None
  | S fuel' =>
      if current_offset <? file_size then
        let '(chunk, f) := read f chunk_size in
        match chunk with
        | [] => Some (Ok st)
        | _ =>
            match analyze_chunk chunk current_offset with
            | Ok cs =>
                scan_loop chunk_size file_size fuel' f
                          (current_offset + len chunk) (merge_chunk st cs)
            | Raise e => Some (Raise e)
            end
        end
      else Some (Ok st)
  end.

(** [analyze_binary_file(filepath, chunk_size)] up to the end of the read
    loop; what follows in the source prints a report and returns [stats]
    unchanged. The header dump reads a first chunk and seeks back to 0. *)
Definition analyze_binary_file (fs : filesystem) (filepath : string)
  (chunk_size : Z) : option (result stats.t) :=
  let st := stats.mk 0 [] [] [] [] in
  match getsize fs filepath with
  | Raise e => Some (Raise e)
  | Ok file_size =>
      let st := stats.mk file_size (stats.date_patterns st)
                  (stats.record_starts st) (stats.text_regions st)
                  (stats.record_sizes st) in
      match open_rb fs filepath with
      | Raise e => Some (Raise e)
      | Ok f =>
          let '(first_chunk, f) := read f (Z.min chunk_size file_size) in
          let f := seek f 0 in
          scan_loop chunk_size file_size (S (List.length (contents f))) f 0 st
      end
  end.

End Platform.


(** ** Two platforms *)

(** The proleptic Gregorian date of a count of days since 1970-01-01. *)
Definition civil_from_days (days : Z) : Z * Z * Z :=
  let z := days + 719468 in
  let era := z / 146097 in
  let doe := z - era * 146097 in
  let yoe := (doe - doe / 1460 + doe / 36524 - doe / 146096) / 365 in
  let y := yoe + era * 400 in
  let doy := doe - (365 * yoe + yoe / 4 - yoe / 100) in
  let mp := (5 * doy + 2) / 153 in
  let d := doy - (153 * mp + 2) / 5 + 1 in
  let m := if mp <? 10 then mp + 3 else mp - 9 in
  (if m <=? 2 then y + 1 else y, m, d).

(** [datetime.fromtimestamp] on a platform with a 64-bit [time_t] whose
    local time is UTC: every 32-bit unsigned count of seconds has a date. *)
Definition fromtimestamp_utc (ts : Z) : result datetime :=
  let secs := ts mod 86400 in
  let '(y, m, d) := civil_from_days (ts / 86400) in
  Ok (mk_datetime y m d (secs / 3600) (secs mod 3600 / 60) (secs mod 60)).


(** ** Vocabulary of the statements *)

(** The unsigned little-endian value of the four, and of the two, bytes
    at a position. *)
Definition u32_at (data : bytes) (offset : Z) : Z :=
  le_decode (py_slice data offset (offset + 4)).

Definition u16_at (data : bytes) (offset : Z) : Z :=
  le_decode (py_slice data offset (offset + 2)).

Fixpoint startswith (p s : string) : bool :=
  match p with
  | EmptyString => true
  | String a p' =>
      match s with
      | EmptyString => false
      | String b s' => Ascii.eqb a b && startswith p' s'
      end
  end.

(** The two kinds of date finding, told apart by their description. *)
Definition is_timestamp_finding (p : date_pattern) : bool :=
  startswith "Possible Unix timestamp: " (snd p).

Definition is_year_finding (p : date_pattern) : bool :=
  startswith "Possible year: " (snd p).

Definition timestamp_findings (l : list date_pattern) : list date_pattern :=
  filter is_timestamp_finding l.

Definition year_findings (l : list date_pattern) : list date_pattern :=
  filter is_year_finding l.

(** What the first test of [find_date_patterns] appends, for the decoded
    count of seconds, and what the second appends, for the decoded year. *)
Definition stamp_part (fromtimestamp : Z -> result datetime)
  (offset ts : Z) : list date_pattern :=
  if (0 <? ts) && (ts <? 0xFFFFFFFF) then
    match fromtimestamp ts with
    | Ok date =>
        if (1900 <? year date) && (year date <? 2100)
        then [(offset, timestamp_desc date)] else []
    | Raise _ => []
    end
  else [].

Definition year_part (offset y : Z) : list date_pattern :=
  if (1800 <? y) && (y <? 2100) then [(offset, year_desc y)] else [].

(** What one call of [find_date_patterns] at position [i] contributes. *)
Definition dates_at (fromtimestamp : Z -> result datetime) (data : bytes)
  (i : Z) : list date_pattern :=
  stamp_part fromtimestamp i (u32_at data i) ++ year_part i (u16_at data i).

(** The chunk's bytes: [pre], then eight bytes, then [post]. *)
Definition embed (pre : bytes) (z1 z2 z3 z4 a1 a2 a3 a4 : byte) (post : bytes) : bytes :=
  pre ++ [z1; z2; z3; z4] ++ [a1; a2; a3; a4] ++ post.

(** The entries that a run of text bytes starting at [pos] adds to
    [text_region]. *)
Fixpoint run_entries (pos : Z) (run : bytes) : list (Z * ascii) :=
  match run with
  | [] => []
  | b :: rest => (pos, chr b) :: run_entries (pos + 1) rest
  end.

(** A prefix of a chunk after which no run is open: it is empty or ends
    with a byte that is not a text byte. *)
Definition closed (pre : bytes) : Prop :=
  pre = [] \/ exists pre' t, pre = pre' ++ [t] /\ is_text_byte t = false.

(** The region of a run of [run] at chunk position [start], reported for
    a chunk at [base_offset]. *)
Definition region_of (base_offset start : Z) (run : bytes) : region.t :=
  region.mk (base_offset + start) (len run) (join (map chr run)).



(** What holds of the variables of the third loop at every turn. *)
Definition text_inv (base_offset : Z) (st : text_state) : Prop :=
  (forall r, In r (found_regions st) ->
     base_offset <= region.offset r /\ 4 < region.length r /\
     region.offset r + region.length r < base_offset + current_pos st) /\
  len (text_region st) <= current_pos st /\
  (forall first rest, text_region st = first :: rest ->
     fst first + len (text_region st) = current_pos st).

(** The statistics of a chunk, list by list. *)
Definition chunk_result (fromtimestamp : Z -> result datetime) (data : bytes)
  (base_offset : Z) : chunk_stats.t :=
  chunk_stats.mk
    (flat_map (fun i => map (fun '(offset, desc) => (base_offset + offset, desc))
                            (dates_at fromtimestamp data i))
              (range_step 0 (len data - 8) 4))
    (map (Z.add base_offset)
         (filter (record_signature data) (range (len data - 8))))
    (text_loop base_offset data).

(** The reads of the loop of [analyze_binary_file], as a list: each chunk
    with the value of [current_offset] it is analysed at. *)
Fixpoint chunks_read (chunk_size file_size : Z) (fuel : nat) (f : file)
  (current_offset : Z) : list (Z * bytes) :=
  match fuel with
  | O => []
  | S fuel' =>
      if current_offset <? file_size then
        let '(chunk, f) := read f chunk_size in
        match chunk with
        | [] => []
        | _ => (current_offset, chunk) ::
               chunks_read chunk_size file_size fuel' f
                           (current_offset + len chunk)
        end
      else []
  end.

(** The base of each chunk is the number of bytes of the chunks before. *)
Fixpoint running_totals (total : Z) (chunks : list (Z * bytes)) : Prop :=
  match chunks with
  | [] => True
  | (base, chunk) :: rest =>
      base = total /\ running_totals (total + len chunk) rest
  end.

(** The chunk is the part of [content] that starts at [base]. *)
Definition chunk_of (content : bytes) (base : Z) (chunk : bytes) : Prop :=
  chunk <> [] /\ 0 <= base /\ base + len chunk <= len content /\
  chunk = py_slice content base (base + len chunk).

(** The merge of the statistics of a list of chunks, in order. *)
Definition merge_all (fromtimestamp : Z -> result datetime)
  (chunks : list (Z * bytes)) (st : stats.t) : stats.t :=
  fold_left
    (fun st '(base, chunk) => merge_chunk st (chunk_result fromtimestamp chunk base))
    chunks st.

(** The chunks that [analyze_binary_file] reads from a file of bytes
    [content]. *)
Definition file_chunks (chunk_size : Z) (content : bytes) : list (Z * bytes) :=
  chunks_read chunk_size (len content) (S (List.length content))
              (mk_file content 0) 0.

(** The distances that the chunks add to the histogram, in order. *)
Definition chunk_distances (chunks : list (Z * bytes)) : list Z :=
  flat_map
    (fun '(base, chunk) =>
       distances (map (Z.add base)
                      (filter (record_signature chunk) (range (len chunk - 8)))))
    chunks.

(** ** Sample inputs *)

(** The signature of the record scan: [00 00 00 00 41 42 43 44]. *)
Definition signature : bytes := [x00; x00; x00; x00; x41; x42; x43; x44].

(** A file of 78 bytes, read in chunks of 64: the signature at 10 and at
    50 in the first chunk and at 5 in the second, among bytes [ff]. *)
Definition two_chunk_file : bytes :=
  (repeat xff 10 ++ signature ++ repeat xff 32 ++ signature ++ repeat xff 6) ++
  (repeat xff 5 ++ signature ++ [xff]).

Definition one_file (name : string) (content : bytes) : filesystem :=
  fun filepath => if String.eqb filepath name then Some content else None.

(** ** Vocabulary of the further properties *)

(** [f] is the finding of a run of text bytes of [data] that is longer
    than 4, starts where no run is open and is ended by a byte of [data]
    that is not a text byte. *)
Definition terminated_run (base_offset : Z) (data : bytes) (f : region.t) : Prop :=
  exists pre run t post,
    data = pre ++ run ++ t :: post /\
    closed pre /\ forallb is_text_byte run = true /\ is_text_byte t = false /\
    4 < len run /\ f = region_of base_offset (len pre) run.






(** ** The report *)

(** The line feed that opens some of the printed lines. *)
Definition newline : string := String "010" EmptyString.

(** Grouping of the digits of a number by three, from the right, on the
    reversed list of digits. *)
Fixpoint group3 (digits : list ascii) : list ascii :=
  match digits with
  | a :: b :: c :: rest =>
      match rest with
      | [] => digits
      | _ => a :: b :: c :: ","%char :: group3 rest
      end
  | _ => digits
  end.

(** [f"{n:,}"]: decimal, with a comma between groups of three digits. *)
Definition fmt_comma (n : Z) : string :=
  let digits := list_ascii_of_string (str_int (Z.abs n)) in
  let grouped := string_of_list_ascii (rev (group3 (rev digits))) in
  if n <? 0 then ("-" ++ grouped)%string else grouped.

(** [f"{n:0Wx}"]: lower-case hexadecimal, padded with zeros to the width
    [W], the sign included. *)
Definition fmt_hex (width : nat) (n : Z) : string :=
  let digits :=
    HexadecimalString.NilZero.string_of_uint (N.to_hex_uint (Z.to_N (Z.abs n))) in
  if n <? 0 then ("-" ++ zfill (width - 1) digits)%string
  else zfill width digits.

(** [str.lower()] on the characters a [string] can hold, which are the
    code points below 256: the letters A to Z, and the capital letters of
    Latin-1 (0xC0 to 0xDE, the sign 0xD7 excepted), move up by 32. *)
Definition lower_char (c : ascii) : ascii :=
  let n := Z.of_N (N_of_ascii c) in
  if ((65 <=? n) && (n <=? 90)) ||
     ((192 <=? n) && (n <=? 222) && negb (n =? 215))
  then ascii_of_N (Z.to_N (n + 32)) else c.

Fixpoint lower (s : string) : string :=
  match s with
  | EmptyString => EmptyString
  | String c s' => String (lower_char c) (lower s')
  end.

(** [word in s] for strings: [word] occurs in [s]. *)
Fixpoint contains (s word : string) : bool :=
  startswith word s ||
  match s with
  | EmptyString => false
  | String _ s' => contains s' word
  end.

Definition genealogy_keywords : list string :=
  ["birth"; "death"; "name"; "date"; "place"; "family"; "married"]%string.

(** [any(word in region['text'].lower() for word in genealogy_keywords)] *)
Definition mentions_keyword (region : region.t) : bool :=
  existsb (fun word => contains (lower (region.text region)) word)
          genealogy_keywords.

(** The line printed for a text region, and for a date finding. *)
Definition region_line (region : region.t) : string :=
  ("Offset " ++ fmt_comma (region.offset region) ++ " (" ++
   fmt_hex 8 (region.offset region) ++ "): " ++ region.text region)%string.

Definition date_line (p : date_pattern) : string :=
  ("Offset " ++ fmt_comma (fst p) ++ " (" ++ fmt_hex 8 (fst p) ++ "): " ++
   snd p)%string.

(** The last loop of [analyze_binary_file]: the regions that mention a
    keyword are printed until ten have been, then the loop is left. *)
Fixpoint keyword_loop (regions : list region.t) (shown : Z)
  (printed : list string) : list string :=
  match regions with
  | [] => printed
  | region :: rest =>
      if mentions_keyword region then
        let printed := printed ++ [region_line region] in
        let shown := shown + 1 in
        if 10 <=? shown then printed else keyword_loop rest shown printed
      else keyword_loop rest shown printed
  end.

Definition text_report (st : stats.t) : list string :=
  (newline ++ "Sample of text regions that might contain genealogical data:")%string ::
  keyword_loop (stats.text_regions st) 0 [].

(** The order of [sorted] on the tuples [(offset, desc)], as a test. *)
Definition date_leb (p q : date_pattern) : bool :=
  (fst p <? fst q) || ((fst p =? fst q) && String.leb (snd p) (snd q)).

(** [sorted(l)] for a list of such tuples: the stable sort of Python,
    here by insertion. *)
Fixpoint sorted_insert (p : date_pattern) (l : list date_pattern) : list date_pattern :=
  match l with
  | [] => [p]
  | q :: rest => if date_leb p q then p :: l else q :: sorted_insert p rest
  end.

Fixpoint sorted (l : list date_pattern) : list date_pattern :=
  match l with
  | [] => []
  | p :: rest => sorted_insert p (sorted rest)
  end.

(** The sample of dates: nothing when there is no date finding, else a
    title and the first ten of the sorted findings. *)
Definition date_report (st : stats.t) : list string :=
  match stats.date_patterns st with
  | [] => []
  | _ =>
      (newline ++ "Sample of potential dates found:")%string ::
      map date_line (py_slice (sorted (stats.date_patterns st)) 0 10)
  end.

(** [c.most_common(n)]: the entries by decreasing count, entries of equal
    count in the order of their insertion, cut after [n] of them. *)
Fixpoint count_insert (x : Z * Z) (l : list (Z * Z)) : list (Z * Z) :=
  match l with
  | [] => [x]
  | y :: rest => if snd y <=? snd x then x :: l else y :: count_insert x rest
  end.

Fixpoint by_count (c : Counter) : list (Z * Z) :=
  match c with
  | [] => []
  | x :: rest => count_insert x (by_count rest)
  end.

Definition most_common (n : Z) (c : Counter) : list (Z * Z) :=
  py_slice (by_count c) 0 n.

Definition size_line (entry : Z * Z) : string :=
  ("Size: " ++ fmt_comma (fst entry) ++ " bytes, Count: " ++
   str_int (snd entry))%string.

(** The first part of the report: nothing when the histogram is empty,
    else a title and the five most common distances. *)
Definition size_report (st : stats.t) : list string :=
  let common_sizes := most_common 5 (stats.record_sizes st) in
  match common_sizes with
  | [] => []
  | _ =>
      (newline ++ "Most common distances between potential record starts:")%string ::
      map size_line common_sizes
  end.

(** What [analyze_binary_file] prints after the scan. *)
Definition report (st : stats.t) : list string :=
  size_report st ++ date_report st ++ text_report st.

(** ** The dump of the header *)







(** * Properties *)

(** ** Lengths, slices and ranges *)

Lemma len_nonneg {A : Type} (l : list A) : 0 <= len l.
Proof. unfold len. lia. Qed.

Lemma len_app {A : Type} (l1 l2 : list A) : len (l1 ++ l2) = len l1 + len l2.
Proof. unfold len. rewrite length_app. lia. Qed.

Lemma len_cons {A : Type} (x : A) (l : list A) : len (x :: l) = 1 + len l.
Proof. unfold len. simpl List.length. lia. Qed.

Lemma len_nil {A : Type} : len (@nil A) = 0.
Proof. reflexivity. Qed.

(** Inside the bounds of the list a slice is the usual sub-list. *)
Lemma py_slice_eq {A : Type} (l : list A) (a b : Z) :
  0 <= a -> a <= b -> b <= len l ->
  py_slice l a b = firstn (Z.to_nat (b - a)) (skipn (Z.to_nat a) l).
Proof.
  intros Ha Hab Hb. unfold py_slice, slice_index.
  destruct (Z.ltb_spec a 0); [lia|]. destruct (Z.ltb_spec b 0); [lia|].
  rewrite !Z.min_l by lia. reflexivity.
Qed.

Lemma len_py_slice {A : Type} (l : list A) (a b : Z) :
  0 <= a -> a <= b -> b <= len l -> len (py_slice l a b) = b - a.
Proof.
  intros Ha Hab Hb. rewrite py_slice_eq by assumption.
  unfold len in *. rewrite length_firstn, length_skipn. lia.
Qed.

Lemma py_slice_app_mid {A : Type} (pre mid post : list A) :
  py_slice (pre ++ mid ++ post) (len pre) (len pre + len mid) = mid.
Proof.
  rewrite py_slice_eq;
    [| apply len_nonneg | pose proof (len_nonneg mid); lia
     | rewrite !len_app; pose proof (len_nonneg post); lia].
  unfold len. rewrite Nat2Z.id.
  replace (Z.to_nat (Z.of_nat (List.length pre) + Z.of_nat (List.length mid)
                     - Z.of_nat (List.length pre)))
    with (List.length mid + 0)%nat by lia.
  rewrite skipn_app, skipn_all, Nat.sub_diag. simpl.
  rewrite firstn_app_2. simpl. apply app_nil_r.
Qed.

(** Goals about lengths: down to [List.length], then linear arithmetic. *)
Ltac lens :=
  unfold len in *;
  repeat rewrite ?length_app, ?length_map, ?length_firstn, ?length_skipn in *;
  cbn [List.length fst snd] in *; lia.

Lemma In_range (i stop : Z) : In i (range stop) <-> 0 <= i < stop.
Proof.
  unfold range. rewrite in_map_iff. split.
  - intros [k [<- Hk]]. apply in_seq in Hk. lia.
  - intros H. exists (Z.to_nat i). split; [lia|]. apply in_seq. lia.
Qed.

Lemma In_range_step (i stop step : Z) :
  0 < step ->
  In i (range_step 0 stop step) <-> 0 <= i < stop /\ i mod step = 0.
Proof.
  intros Hs. unfold range_step. rewrite in_map_iff. split.
  - intros [k [<- Hk]]. apply in_seq in Hk.
    rewrite Z.add_0_l, Z.mod_mul by lia.
    assert (Hq : Z.of_nat k < (stop - 0 + step - 1) / step) by lia.
    assert (Hm : step * ((stop - 0 + step - 1) / step) <= stop - 0 + step - 1)
      by (apply Z.mul_div_le; lia).
    split; [split; [nia|nia] | reflexivity].
  - intros [[H0 Hlt] Hmod]. exists (Z.to_nat (i / step)).
    assert (Hi : i = step * (i / step)) by (apply Z.div_exact; lia).
    assert (0 <= i / step) by (apply Z.div_pos; lia).
    split; [rewrite Z2Nat.id by lia; lia|].
    apply in_seq. split; [lia|]. simpl.
    assert (i / step < (stop - 0 + step - 1) / step); [|lia].
    apply Z.div_lt_upper_bound; [lia|].
    assert (Hm : (stop - 0 + step - 1) mod step < step)
      by (apply Z.mod_pos_bound; lia).
    pose proof (Z.div_mod (stop - 0 + step - 1) step ltac:(lia)) as Hd.
    nia.
Qed.

(** ** The date scanner *)

Lemma startswith_app (p s : string) : startswith p (p ++ s) = true.
Proof.
  induction p as [|a p IH]; simpl; [reflexivity|].
  rewrite Ascii.eqb_refl. exact IH.
Qed.

Lemma timestamp_desc_kind (offset : Z) (date : datetime) :
  is_timestamp_finding (offset, timestamp_desc date) = true /\
  is_year_finding (offset, timestamp_desc date) = false.
Proof.
  split; [apply startswith_app | reflexivity].
Qed.

Lemma year_desc_kind (offset y : Z) :
  is_year_finding (offset, year_desc y) = true /\
  is_timestamp_finding (offset, year_desc y) = false.
Proof.
  split; [apply startswith_app | reflexivity].
Qed.

Lemma unpack_le_slice (data : bytes) (offset size : Z) :
  0 <= offset -> 0 <= size -> offset + size <= len data ->
  unpack_le size (py_slice data offset (offset + size)) =
  Ok (le_decode (py_slice data offset (offset + size))).
Proof.
  intros H0 Hs Hl. unfold unpack_le.
  rewrite len_py_slice by lia.
  replace (offset + size - offset) with size by lia.
  rewrite Z.eqb_refl. reflexivity.
Qed.

Lemma in_range_bool (lo hi x : Z) :
  (lo <? x) && (x <? hi) = true <-> lo < x < hi.
Proof. rewrite andb_true_iff, !Z.ltb_lt. tauto. Qed.

Lemma record_loop_eq (data : bytes) (base_offset : Z) (positions : list Z) :
  forall acc,
  record_loop data base_offset positions acc =
  acc ++ map (Z.add base_offset) (filter (record_signature data) positions).
Proof.
  induction positions as [|i rest IH]; intros acc.
  - simpl. rewrite app_nil_r. reflexivity.
  - cbn [record_loop filter]. rewrite IH.
    destruct (record_signature data i).
    + rewrite <- app_assoc. reflexivity.
    + reflexivity.
Qed.

(** The positions of the date scan have at least nine bytes in front of
    them. *)
Lemma date_positions_in_bounds (data : bytes) (i : Z) :
  In i (range_step 0 (len data - 8) 4) -> 0 <= i /\ i + 8 < len data.
Proof. intros Hi. apply In_range_step in Hi; lia. Qed.

(** Outside the range of the first test the decoder is not called: the
    result is the same on every platform. *)
Lemma find_date_patterns_guard (ft1 ft2 : Z -> result datetime)
  (data : bytes) (offset : Z) :
  ~ 0 < u32_at data offset < 0xFFFFFFFF ->
  find_date_patterns ft1 data offset = find_date_patterns ft2 data offset.
Proof.
  intros Hts. unfold find_date_patterns.
  destruct (offset + 4 <=? len data); [|reflexivity].
  unfold unpack_I, unpack_le.
  destruct (len (py_slice data offset (offset + 4)) =? 4); [|reflexivity].
  fold (u32_at data offset). cbn [bind].
  destruct (Z.ltb_spec 0 (u32_at data offset));
    destruct (Z.ltb_spec (u32_at data offset) 0xFFFFFFFF);
    try reflexivity.
  lia.
Qed.

Section Scan.

Variable fromtimestamp : Z -> result datetime.

Lemma find_date_patterns_eq (data : bytes) (offset : Z) :
  0 <= offset -> offset + 4 <= len data ->
  find_date_patterns fromtimestamp data offset =
  Ok (stamp_part fromtimestamp offset (u32_at data offset) ++
      year_part offset (u16_at data offset)).
Proof.
  intros H0 H4. unfold find_date_patterns, stamp_part, year_part.
  destruct (Z.leb_spec (offset + 4) (len data)); [|lia].
  destruct (Z.leb_spec (offset + 2) (len data)); [|lia].
  unfold unpack_I, unpack_H. rewrite !unpack_le_slice by lia.
  fold (u32_at data offset). fold (u16_at data offset). simpl bind.
  destruct ((0 <? u32_at data offset) && (u32_at data offset <? 0xFFFFFFFF)).
  - destruct (fromtimestamp (u32_at data offset)) as [date|e]; simpl.
    + destruct ((1900 <? year date) && (year date <? 2100)); simpl;
        destruct ((1800 <? u16_at data offset) && (u16_at data offset <? 2100));
        reflexivity.
    + destruct ((1800 <? u16_at data offset) && (u16_at data offset <? 2100));
        reflexivity.
  - simpl.
    destruct ((1800 <? u16_at data offset) && (u16_at data offset <? 2100));
      reflexivity.
Qed.


Lemma timestamp_findings_parts (offset ts y : Z) :
  timestamp_findings (stamp_part fromtimestamp offset ts ++ year_part offset y) =
  stamp_part fromtimestamp offset ts.
Proof.
  unfold timestamp_findings, stamp_part, year_part.
  rewrite filter_app.
  destruct ((1800 <? y) && (y <? 2100)); simpl; rewrite app_nil_r;
    destruct ((0 <? ts) && (ts <? 0xFFFFFFFF)); try reflexivity;
    destruct (fromtimestamp ts) as [date|e]; try reflexivity;
    destruct ((1900 <? year date) && (year date <? 2100)); try reflexivity;
    cbn [filter app]; destruct (timestamp_desc_kind offset date) as [-> _];
    reflexivity.
Qed.

Lemma year_findings_parts (offset ts y : Z) :
  year_findings (stamp_part fromtimestamp offset ts ++ year_part offset y) =
  year_part offset y.
Proof.
  unfold year_findings, stamp_part, year_part.
  rewrite filter_app.
  assert (Hs : forall l, l = [] \/ (exists date, l = [(offset, timestamp_desc date)]) ->
               filter is_year_finding l = []).
  { intros l [->|[date ->]]; reflexivity. }
  rewrite Hs.
  - cbn [app]. destruct ((1800 <? y) && (y <? 2100)); [|reflexivity].
    cbn [filter]. destruct (year_desc_kind offset y) as [-> _]. reflexivity.
  - destruct ((0 <? ts) && (ts <? 0xFFFFFFFF)); [|now left].
    destruct (fromtimestamp ts) as [date|e]; [|now left].
    destruct ((1900 <? year date) && (year date <? 2100)); [|now left].
    right. exists date. reflexivity.
Qed.

(** C2, as the code has it. At a position with four bytes available, as
    every scanned position is, the call returns at most two findings, a
    timestamp finding before a year finding. The year finding is there
    exactly when the two-byte value lies strictly between 1800 and 2100
    (1850 is reported; 1799, 2100 and 2101 are not). The timestamp finding
    is there exactly when the four-byte value lies strictly between 0 and
    0xFFFFFFFF and the platform gives it a date whose year lies strictly
    between 1900 and 2100. Neither test looks at the other. *)
Theorem date_scanner_reports (data : bytes) (offset : Z) :
  0 <= offset -> offset + 4 <= len data ->
  exists dates,
    find_date_patterns fromtimestamp data offset = Ok dates /\
    dates = timestamp_findings dates ++ year_findings dates /\
    (List.length dates <= 2)%nat /\
    (year_findings dates <> [] <-> 1800 < u16_at data offset < 2100) /\
    (year_findings dates <> [] ->
     year_findings dates = [(offset, year_desc (u16_at data offset))]) /\
    (u16_at data offset = 1850 ->
     year_findings dates = [(offset, "Possible year: 1850"%string)]) /\
    (u16_at data offset = 1799 \/ u16_at data offset = 2100 \/
     u16_at data offset = 2101 -> year_findings dates = []) /\
    (timestamp_findings dates <> [] <->
     0 < u32_at data offset < 0xFFFFFFFF /\
     exists date, fromtimestamp (u32_at data offset) = Ok date /\
                  1900 < year date < 2100) /\
    (forall date, fromtimestamp (u32_at data offset) = Ok date ->
     timestamp_findings dates <> [] ->
     timestamp_findings dates = [(offset, timestamp_desc date)]).
Proof.
  intros H0 H4. eexists. split; [apply find_date_patterns_eq; assumption|].
  rewrite timestamp_findings_parts, year_findings_parts.
  split; [reflexivity|].
  set (ts := u32_at data offset). set (y := u16_at data offset).
  unfold stamp_part, year_part.
  pose proof (in_range_bool 1800 2100 y) as Hy.
  pose proof (in_range_bool 0 0xFFFFFFFF ts) as Hts.
  split; [|split; [|split; [|split; [|split; [|split]]]]].
  - rewrite length_app.
    destruct ((0 <? ts) && _); [destruct (fromtimestamp ts) as [d|];
      [destruct ((1900 <? year d) && _)|]|];
      destruct ((1800 <? y) && _); simpl; lia.
  - split.
    + destruct ((1800 <? y) && _); [intros _; apply Hy; reflexivity|congruence].
    + intros Hr. apply Hy in Hr. rewrite Hr. discriminate.
  - destruct ((1800 <? y) && _); [reflexivity|congruence].
  - intros ->. reflexivity.
  - intros [-> | [-> | ->]]; reflexivity.
  - split.
    + destruct ((0 <? ts) && _); [|congruence]. intros Hne.
      split; [apply Hts; reflexivity|].
      destruct (fromtimestamp ts) as [d|]; [|congruence].
      pose proof (in_range_bool 1900 2100 (year d)) as Hd.
      destruct ((1900 <? year d) && _); [|congruence].
      exists d. split; [reflexivity|]. apply Hd. reflexivity.
    + intros [Hr [d [Hd Hyr]]]. apply Hts in Hr. rewrite Hr, Hd.
      apply in_range_bool in Hyr. rewrite Hyr. discriminate.
  - intros date Hd. rewrite Hd.
    destruct ((0 <? ts) && _); [|congruence].
    destruct ((1900 <? year date) && _); [reflexivity|congruence].
Qed.

(** C9. A four-byte value of 0 or 0xFFFFFFFF gives no timestamp finding on
    any platform: a timestamp finding requires the raw value to lie
    strictly between 0 and 0xFFFFFFFF, and the decoder is not consulted
    otherwise. The value 0 is left out although its UTC date is in 1970,
    a year strictly between 1900 and 2100. *)
Theorem epoch_bounds_guard (data : bytes) (offset : Z) :
  0 <= offset -> offset + 4 <= len data ->
  exists dates,
    find_date_patterns fromtimestamp data offset = Ok dates /\
    (u32_at data offset = 0 \/ u32_at data offset = 0xFFFFFFFF ->
     timestamp_findings dates = [] /\
     find_date_patterns (fun _ => Raise ValueError) data offset = Ok dates) /\
    (timestamp_findings dates <> [] -> 0 < u32_at data offset < 0xFFFFFFFF) /\
    (exists date, fromtimestamp_utc 0 = Ok date /\ year date = 1970 /\
                  1900 < year date < 2100).
Proof.
  intros H0 H4. eexists. split; [apply find_date_patterns_eq; assumption|].
  rewrite timestamp_findings_parts. unfold stamp_part.
  split; [|split].
  - intros Hts. split; [destruct Hts as [-> | ->]; reflexivity|].
    rewrite (find_date_patterns_guard _ fromtimestamp) by lia.
    apply find_date_patterns_eq; assumption.
  - pose proof (in_range_bool 0 0xFFFFFFFF (u32_at data offset)) as Hts.
    destruct ((0 <? _) && _); [intros _; apply Hts; reflexivity|congruence].
  - eexists. split; [reflexivity|]. simpl. lia.
Qed.

(** ** The loops of analyze_chunk *)

Lemma find_date_patterns_at (data : bytes) (i : Z) :
  0 <= i -> i + 4 <= len data ->
  find_date_patterns fromtimestamp data i = Ok (dates_at fromtimestamp data i).
Proof. apply find_date_patterns_eq. Qed.

Lemma date_loop_eq (data : bytes) (base_offset : Z) (positions : list Z) :
  (forall i, In i positions -> 0 <= i /\ i + 4 <= len data) ->
  forall acc,
  date_loop fromtimestamp data base_offset positions acc =
  Ok (acc ++
      flat_map (fun i => map (fun '(offset, desc) => (base_offset + offset, desc))
                             (dates_at fromtimestamp data i)) positions).
Proof.
  induction positions as [|i rest IH]; intros Hpos acc.
  - simpl. rewrite app_nil_r. reflexivity.
  - cbn [date_loop flat_map].
    rewrite find_date_patterns_at by (apply Hpos; now left).
    cbn [bind]. rewrite IH by (intros j Hj; apply Hpos; now right).
    destruct (dates_at fromtimestamp data i) as [|d ds].
    + reflexivity.
    + rewrite <- app_assoc. reflexivity.
Qed.

(** [analyze_chunk] returns, with these three lists. *)
Lemma analyze_chunk_eq (data : bytes) (base_offset : Z) :
  analyze_chunk fromtimestamp data base_offset =
  Ok (chunk_result fromtimestamp data base_offset).
Proof.
  unfold analyze_chunk, chunk_result. rewrite date_loop_eq.
  - cbn [bind app]. rewrite record_loop_eq. reflexivity.
  - intros i Hi. apply date_positions_in_bounds in Hi. lia.
Qed.

End Scan.

(** ** The record-boundary scanner *)

Lemma bytes_eqb_eq (x y : bytes) : bytes_eqb x y = true <-> x = y.
Proof.
  revert y. induction x as [|a x IH]; destruct y as [|b y]; simpl;
    try (split; congruence).
  rewrite andb_true_iff, IH. split.
  - intros [Hab ->]. apply Byte.byte_dec_bl in Hab. congruence.
  - intros [= -> ->]. split; [apply Byte.byte_dec_lb|]; reflexivity.
Qed.

Lemma len_embed (pre post : bytes) (z1 z2 z3 z4 a1 a2 a3 a4 : byte) :
  len (embed pre z1 z2 z3 z4 a1 a2 a3 a4 post) = len pre + 8 + len post.
Proof. unfold embed. rewrite !len_app, !len_cons, len_nil. lia. Qed.

(** The test at the position where eight bytes are embedded looks at
    exactly these eight bytes. *)
Lemma record_signature_embed (pre post : bytes) (z1 z2 z3 z4 a1 a2 a3 a4 : byte) :
  record_signature (embed pre z1 z2 z3 z4 a1 a2 a3 a4 post) (len pre) =
  bytes_eqb [z1; z2; z3; z4] [x00; x00; x00; x00] && isalnum [a1; a2; a3; a4].
Proof.
  unfold record_signature, embed. f_equal.
  - f_equal. apply (py_slice_app_mid pre [z1; z2; z3; z4]).
  - f_equal. rewrite (app_assoc pre).
    replace (len pre + 4) with (len (pre ++ [z1; z2; z3; z4]))
      by (rewrite len_app; reflexivity).
    replace (len pre + 8) with (len (pre ++ [z1; z2; z3; z4]) + len [a1; a2; a3; a4])
      by (rewrite len_app; unfold len; simpl; lia).
    apply py_slice_app_mid.
Qed.

Lemma seq_sorted (n a : nat) : StronglySorted lt (seq a n).
Proof.
  revert a. induction n as [|n IH]; intros a; simpl; constructor.
  - apply IH.
  - apply Forall_forall. intros x Hx. apply in_seq in Hx. lia.
Qed.

Lemma range_sorted (stop : Z) : StronglySorted Z.lt (range stop).
Proof.
  unfold range. generalize (seq_sorted (Z.to_nat stop) 0).
  induction 1 as [|a l Hs IH Ha]; simpl; constructor.
  - exact IH.
  - rewrite Forall_forall in *. intros x Hx. apply in_map_iff in Hx.
    destruct Hx as [k [<- Hk]]. apply Ha in Hk. lia.
Qed.

Lemma sorted_filter (f : Z -> bool) (l : list Z) :
  StronglySorted Z.lt l -> StronglySorted Z.lt (filter f l).
Proof.
  induction 1 as [|a l Hs IH Ha]; simpl; [constructor|].
  destruct (f a); [constructor|]; try exact IH.
  rewrite Forall_forall in *. intros x Hx. apply filter_In in Hx.
  apply Ha, Hx.
Qed.

Lemma sorted_shift (b : Z) (l : list Z) :
  StronglySorted Z.lt l -> StronglySorted Z.lt (map (Z.add b) l).
Proof.
  induction 1 as [|a l Hs IH Ha]; simpl; constructor; [exact IH|].
  rewrite Forall_forall in *. intros x Hx. apply in_map_iff in Hx.
  destruct Hx as [y [<- Hy]]. apply Ha in Hy. lia.
Qed.

Lemma sorted_NoDup (l : list Z) : StronglySorted Z.lt l -> NoDup l.
Proof.
  induction 1 as [|a l Hs IH Ha]; constructor; [|exact IH].
  intros Hin. rewrite Forall_forall in Ha. apply Ha in Hin. lia.
Qed.




Lemma In_record_starts (data : bytes) (base_offset o : Z) :
  In o (map (Z.add base_offset)
            (filter (record_signature data) (range (len data - 8)))) <->
  exists i, o = base_offset + i /\ 0 <= i < len data - 8 /\
            record_signature data i = true.
Proof.
  rewrite in_map_iff. split.
  - intros [i [<- Hi]]. apply filter_In in Hi. destruct Hi as [Hr Hsig].
    apply In_range in Hr. exists i. auto.
  - intros [i [-> [Hr Hsig]]]. exists i. split; [reflexivity|].
    apply filter_In. split; [apply In_range; lia | exact Hsig].
Qed.


(** ** The text-run extractor *)

Lemma run_entries_len (pos : Z) (run : bytes) :
  len (run_entries pos run) = len run.
Proof.
  revert pos. induction run as [|b run IH]; intros pos; [reflexivity|].
  cbn [run_entries]. rewrite !len_cons, IH. reflexivity.
Qed.

Lemma run_entries_text (pos : Z) (run : bytes) :
  map snd (run_entries pos run) = map chr run.
Proof.
  revert pos. induction run as [|b run IH]; intros pos; [reflexivity|].
  cbn [run_entries map snd]. rewrite IH. reflexivity.
Qed.

Section TextRuns.

Variable base_offset : Z.

Lemma text_step_text (st : text_state) (b : byte) :
  is_text_byte b = true ->
  text_step base_offset st b =
  mk_text_state (text_region st ++ [(current_pos st, chr b)])
                (current_pos st + 1) (found_regions st).
Proof. intros Hb. unfold text_step. rewrite Hb. reflexivity. Qed.

Lemma text_fold_run (run : bytes) :
  forallb is_text_byte run = true ->
  forall st,
  fold_left (text_step base_offset) run st =
  mk_text_state (text_region st ++ run_entries (current_pos st) run)
                (current_pos st + len run) (found_regions st).
Proof.
  induction run as [|b run IH]; intros Hrun st.
  - simpl. rewrite app_nil_r, len_nil, Z.add_0_r. destruct st; reflexivity.
  - simpl in Hrun. apply andb_true_iff in Hrun. destruct Hrun as [Hb Hrun].
    cbn [fold_left]. rewrite IH by assumption.
    rewrite text_step_text by assumption.
    cbn [text_region current_pos found_regions run_entries].
    rewrite <- app_assoc, len_cons. f_equal. lia.
Qed.

(** A byte that is not a text byte closes the run [run_entries start run]:
    the run is reported when it is longer than 4, and dropped otherwise. *)
Lemma text_step_close (start pos : Z) (run : bytes) (acc : list region.t) (t : byte) :
  is_text_byte t = false ->
  text_step base_offset (mk_text_state (run_entries start run) pos acc) t =
  mk_text_state [] (pos + 1)
    (acc ++ if 4 <? len run then [region_of base_offset start run] else []).
Proof.
  intros Ht. unfold text_step. rewrite Ht.
  cbn [text_region current_pos found_regions].
  destruct run as [|b run].
  - cbn [run_entries]. rewrite app_nil_r. reflexivity.
  - cbn [run_entries fst map snd]. unfold region_of.
    rewrite run_entries_text, !len_cons, run_entries_len. cbn [map].
    destruct (4 <? _); [reflexivity | rewrite app_nil_r; reflexivity].
Qed.

Lemma text_fold_pos (data : bytes) :
  forall st, current_pos (fold_left (text_step base_offset) data st) = current_pos st + len data.
Proof.
  induction data as [|b data IH]; intros st.
  - rewrite len_nil. simpl. lia.
  - cbn [fold_left]. rewrite IH, len_cons. unfold text_step.
    destruct (is_text_byte b); [|destruct (text_region st)];
      cbn [current_pos]; lia.
Qed.

(** After a closed prefix no run is open. *)
Lemma text_fold_closed (pre : bytes) :
  closed pre ->
  text_region (fold_left (text_step base_offset) pre (mk_text_state [] 0 [])) = [].
Proof.
  intros [-> | [pre' [t [-> Ht]]]]; [reflexivity|].
  rewrite fold_left_app. cbn [fold_left].
  generalize (fold_left (text_step base_offset) pre' (mk_text_state [] 0 [])). intros st.
  unfold text_step. rewrite Ht.
  destruct (text_region st) eqn:E; reflexivity.
Qed.

(** The regions found so far are only ever extended. *)
Lemma text_fold_acc (data : bytes) :
  forall tr pos acc,
  found_regions (fold_left (text_step base_offset) data (mk_text_state tr pos acc)) =
  acc ++ found_regions (fold_left (text_step base_offset) data (mk_text_state tr pos [])).
Proof.
  induction data as [|b data IH]; intros tr pos acc.
  - simpl. rewrite app_nil_r. reflexivity.
  - cbn [fold_left]. unfold text_step at 2 4.
    cbn [text_region current_pos found_regions].
    destruct (is_text_byte b); [apply IH|].
    destruct tr as [|first tr]; [apply IH|].
    destruct (4 <? _); [|apply IH].
    rewrite IH. rewrite (IH _ _ ([] ++ _)). rewrite <- app_assoc. reflexivity.
Qed.

End TextRuns.

(** Scanning from position [pos + p] for a chunk at [base_offset] finds
    what scanning from [pos] finds for a chunk at [base_offset + p]. *)
Lemma text_fold_shift (base_offset p : Z) (data : bytes) :
  forall tr pos,
  found_regions
    (fold_left (text_step base_offset) data
       (mk_text_state (map (fun e => (fst e + p, snd e)) tr) (pos + p) [])) =
  found_regions
    (fold_left (text_step (base_offset + p)) data (mk_text_state tr pos [])).
Proof.
  induction data as [|b data IH]; intros tr pos; [reflexivity|].
  cbn [fold_left]. unfold text_step at 2 4.
  cbn [text_region current_pos found_regions].
  destruct (is_text_byte b).
  - replace (pos + p + 1) with (pos + 1 + p) by lia.
    rewrite <- (IH (tr ++ [(pos, chr b)])). rewrite map_app. reflexivity.
  - replace (pos + p + 1) with (pos + 1 + p) by lia.
    destruct tr as [|first tr]; [apply (IH [])|].
    cbn [map].
    replace (len ((fst first + p, snd first) :: map (fun e => (fst e + p, snd e)) tr))
      with (len (first :: tr))
      by (unfold len; simpl; rewrite length_map; reflexivity).
    destruct (4 <? len (first :: tr)); [|apply (IH [])].
    rewrite text_fold_acc, (text_fold_acc (base_offset + p)).
    rewrite (IH []). cbn [fst map snd app]. rewrite map_map. cbn [snd].
    f_equal. f_equal. lia.
Qed.



Lemma text_step_inv (base_offset : Z) (st : text_state) (b : byte) :
  text_inv base_offset st -> text_inv base_offset (text_step base_offset st b).
Proof.
  intros [Hf [Hl Hr]]. unfold text_step.
  destruct (is_text_byte b).
  - split; [|split]; cbn [text_region current_pos found_regions].
    + intros r Hin. specialize (Hf r Hin). lia.
    + lens.
    + intros first rest E.
      destruct (text_region st) as [|f0 tr0] eqn:Etr.
      * simpl in E. injection E as <- _. lens.
      * simpl in E. injection E as <- _. specialize (Hr f0 tr0 eq_refl). lens.
  - destruct (text_region st) as [|f0 tr0] eqn:Etr.
    + split; [|split]; cbn [text_region current_pos found_regions].
      * intros r Hin. specialize (Hf r Hin). lia.
      * lens.
      * intros first rest E. discriminate E.
    + specialize (Hr f0 tr0 eq_refl).
      split; [|split]; cbn [text_region current_pos found_regions].
      * intros r Hin. destruct (Z.ltb_spec 4 (len (f0 :: tr0))) as [H4|H4].
        -- apply in_app_or in Hin. destruct Hin as [Hin|[<-|[]]].
           ++ specialize (Hf r Hin). lia.
           ++ cbn [region.offset region.length]. lia.
        -- specialize (Hf r Hin). lia.
      * lens.
      * intros first rest E. discriminate E.
Qed.

Lemma text_fold_inv (base_offset : Z) (data : bytes) :
  forall st, text_inv base_offset st ->
  text_inv base_offset (fold_left (text_step base_offset) data st).
Proof.
  induction data as [|b data IH]; intros st Hst; [exact Hst|].
  cbn [fold_left]. apply IH, text_step_inv, Hst.
Qed.

(** Every region found lies inside the chunk, is longer than 4 and is
    followed by a byte of the chunk. *)
Lemma text_loop_bounds (base_offset : Z) (data : bytes) (r : region.t) :
  In r (text_loop base_offset data) ->
  base_offset <= region.offset r /\ 4 < region.length r /\
  region.offset r + region.length r < base_offset + len data.
Proof.
  intros Hin. unfold text_loop in Hin.
  assert (H0 : text_inv base_offset (mk_text_state [] 0 [])).
  { split; [|split]; cbn [text_region current_pos found_regions].
    - intros r0 [].
    - rewrite len_nil. lia.
    - intros first rest E. discriminate E. }
  destruct (text_fold_inv base_offset data _ H0) as [Hf _].
  specialize (Hf r Hin). rewrite text_fold_pos in Hf.
  cbn [current_pos] in Hf. lia.
Qed.

(** ** The file walker *)

Lemma firstn_length_prefix {A : Type} (n : nat) (l : list A) :
  firstn (List.length (firstn n l)) l = firstn n l.
Proof.
  revert l. induction n as [|n IH]; intros [|x l]; simpl; try reflexivity.
  rewrite IH. reflexivity.
Qed.

(** A read that returns bytes returns the part of the file at the
    position, and moves the position past it. *)
Lemma read_chunk (f f' : file) (size : Z) (chunk : bytes) :
  read f size = (chunk, f') -> 0 <= position f -> chunk <> [] ->
  contents f' = contents f /\
  position f' = position f + len chunk /\
  chunk_of (contents f) (position f) chunk.
Proof.
  unfold read. intros [= Hc <-] H0 Hne. cbn [contents position].
  split; [reflexivity|]. split; [rewrite <- Hc; reflexivity|].
  set (rest := skipn (Z.to_nat (position f)) (contents f)) in *.
  assert (Hpre : chunk = firstn (List.length chunk) rest).
  { rewrite <- Hc. destruct (size <? 0).
    - rewrite firstn_all. reflexivity.
    - rewrite firstn_length_prefix. reflexivity. }
  assert (Hlen : (List.length chunk <= List.length rest)%nat).
  { rewrite Hpre at 1. rewrite length_firstn. lia. }
  assert (Hrest : (List.length rest = List.length (contents f) - Z.to_nat (position f))%nat)
    by apply length_skipn.
  assert (Hpos : (0 < List.length chunk)%nat)
    by (destruct chunk; [congruence | simpl; lia]).
  unfold chunk_of. split; [exact Hne|]. split; [exact H0|].
  split; [unfold len; lia|].
  rewrite py_slice_eq by (unfold len; lia).
  replace (Z.to_nat (position f + len chunk - position f))
    with (List.length chunk) by (unfold len; lia).
  exact Hpre.
Qed.

Section Walker.

Variable fromtimestamp : Z -> result datetime.
Variable chunk_size : Z.

(** With a bound above the number of bytes left, the loop returns what
    the merge of the chunks it reads gives. *)
Lemma scan_loop_eq (file_size : Z) (fuel : nat) :
  forall f current_offset st,
  0 <= position f ->
  (List.length (contents f) - Z.to_nat (position f) < fuel)%nat ->
  scan_loop fromtimestamp chunk_size file_size fuel f current_offset st =
  Some (Ok (merge_all fromtimestamp
              (chunks_read chunk_size file_size fuel f current_offset) st)).
Proof.
  induction fuel as [|fuel IH]; intros f off st H0 Hfuel; [lia|].
  cbn [scan_loop chunks_read].
  destruct (off <? file_size); [|reflexivity].
  destruct (read f chunk_size) as [chunk f'] eqn:Hread.
  destruct chunk as [|b chunk]; [reflexivity|].
  destruct (read_chunk _ _ _ _ Hread H0 ltac:(discriminate))
    as [Hc [Hp [_ [_ [Hle _]]]]].
  rewrite analyze_chunk_eq. unfold merge_all. cbn [fold_left].
  apply IH.
  - rewrite Hp. pose proof (len_nonneg (b :: chunk)). lia.
  - rewrite Hc, Hp. unfold len in *. cbn [List.length] in *. lia.
Qed.

(** The chunks read from a position are parts of the file at their
    bases, and the bases are running totals. *)
Lemma chunks_read_spec (file_size : Z) (fuel : nat) :
  forall f,
  0 <= position f ->
  running_totals (position f)
    (chunks_read chunk_size file_size fuel f (position f)) /\
  forall base chunk,
    In (base, chunk) (chunks_read chunk_size file_size fuel f (position f)) ->
    chunk_of (contents f) base chunk.
Proof.
  induction fuel as [|fuel IH]; intros f H0; [split; [exact I | intros ? ? []]|].
  cbn [chunks_read].
  destruct (position f <? file_size); [|split; [exact I | intros ? ? []]].
  destruct (read f chunk_size) as [chunk f'] eqn:Hread.
  destruct chunk as [|b chunk]; [split; [exact I | intros ? ? []]|].
  destruct (read_chunk _ _ _ _ Hread H0 ltac:(discriminate)) as [Hc [Hp Hof]].
  assert (H0' : 0 <= position f')
    by (rewrite Hp; pose proof (len_nonneg (b :: chunk)); lia).
  destruct (IH f' H0') as [Hrun Hin]. rewrite Hp, Hc in *.
  split.
  - cbn [running_totals]. split; [reflexivity | exact Hrun].
  - intros base c [[= <- <-] | Hrest]; [exact Hof | apply Hin, Hrest].
Qed.

Lemma analyze_binary_file_eq (fs : filesystem) (filepath : string) (content : bytes) :
  fs filepath = Some content ->
  analyze_binary_file fromtimestamp fs filepath chunk_size =
  Some (Ok (merge_all fromtimestamp (file_chunks chunk_size content)
                      (stats.mk (len content) [] [] [] []))).
Proof.
  intros Hfs. unfold analyze_binary_file, getsize, open_rb. rewrite Hfs.
  cbn [stats.date_patterns stats.record_starts stats.text_regions
       stats.record_sizes].
  destruct (read (mk_file content 0) (Z.min chunk_size (len content)))
    as [first_chunk f] eqn:Hread.
  injection Hread as _ <-. cbn [seek contents].
  apply scan_loop_eq; unfold seek; cbn [contents position]; lia.
Qed.

Lemma file_chunks_spec (content : bytes) :
  running_totals 0 (file_chunks chunk_size content) /\
  forall base chunk,
    In (base, chunk) (file_chunks chunk_size content) ->
    chunk_of content base chunk.
Proof.
  apply (chunks_read_spec (len content) (S (List.length content))
           (mk_file content 0)).
  cbn [position]. lia.
Qed.

End Walker.

(** ** The histogram *)





(** A list of fewer than two record starts has no distance: the test
    [len(...) > 1] of the source guards an update by nothing. *)
Lemma distances_short (rs : list Z) : len rs <= 1 -> distances rs = [].
Proof.
  intros Hle. unfold distances, range.
  replace (Z.to_nat (len rs - 1)) with O by lia. reflexivity.
Qed.

Lemma merge_chunk_eq (st : stats.t) (cs : chunk_stats.t) :
  merge_chunk st cs =
  stats.mk (stats.file_size st)
    (stats.date_patterns st ++ chunk_stats.date_patterns cs)
    (stats.record_starts st ++ chunk_stats.record_starts cs)
    (stats.text_regions st ++ chunk_stats.text_regions cs)
    (counter_update (stats.record_sizes st)
                    (distances (chunk_stats.record_starts cs))).
Proof.
  unfold merge_chunk. f_equal.
  destruct (Z.ltb_spec 1 (len (chunk_stats.record_starts cs))); [reflexivity|].
  rewrite distances_short by assumption. reflexivity.
Qed.

Lemma merge_all_eq (fromtimestamp : Z -> result datetime) (chunks : list (Z * bytes)) :
  forall st,
  merge_all fromtimestamp chunks st =
  stats.mk (stats.file_size st)
    (stats.date_patterns st ++
     flat_map (fun '(base, chunk) =>
                 chunk_stats.date_patterns (chunk_result fromtimestamp chunk base))
              chunks)
    (stats.record_starts st ++
     flat_map (fun '(base, chunk) =>
                 chunk_stats.record_starts (chunk_result fromtimestamp chunk base))
              chunks)
    (stats.text_regions st ++
     flat_map (fun '(base, chunk) =>
                 chunk_stats.text_regions (chunk_result fromtimestamp chunk base))
              chunks)
    (counter_update (stats.record_sizes st) (chunk_distances chunks)).
Proof.
  unfold merge_all.
  induction chunks as [|[base chunk] chunks IH]; intros st.
  - cbn. rewrite !app_nil_r. destruct st; reflexivity.
  - cbn [fold_left]. rewrite IH, merge_chunk_eq.
    cbn [stats.file_size stats.date_patterns stats.record_starts
         stats.text_regions stats.record_sizes flat_map chunk_distances].
    rewrite <- !app_assoc. f_equal.
    unfold counter_update. rewrite fold_left_app. reflexivity.
Qed.

(** ** Offsets of the findings of a chunk *)

Section ChunkOffsets.

Variable fromtimestamp : Z -> result datetime.

Lemma dates_at_fst (data : bytes) (i : Z) (p : date_pattern) :
  In p (dates_at fromtimestamp data i) -> fst p = i.
Proof.
  unfold dates_at, stamp_part, year_part. intros Hin.
  apply in_app_or in Hin. destruct Hin as [Hin|Hin].
  - destruct ((0 <? _) && _); [|destruct Hin].
    destruct (fromtimestamp _); [|destruct Hin].
    destruct ((1900 <? _) && _); [|destruct Hin].
    destruct Hin as [<-|[]]. reflexivity.
  - destruct ((1800 <? _) && _); [|destruct Hin].
    destruct Hin as [<-|[]]. reflexivity.
Qed.



End ChunkOffsets.

(** * The claims *)

Section Claims.

Variable fromtimestamp : Z -> result datetime.

(** C1. The record scanner reports the absolute offset [base_offset + i]
    exactly for the positions [i] from 0 to [len(data) - 9] where four
    null bytes are followed by four alphanumeric bytes, each position once.
    Eight bytes embedded after [pre] are reported at [len(pre)] exactly when
    the first four are null, the last four are letters or digits, and at
    least one byte follows them: the loop is over [range(len(data) - 8)],
    which leaves out the last position where eight bytes fit. A chunk that
    is the signature [00 00 00 00 41 42 43 44] and nothing else, or that
    ends with it, gives no finding for it. *)
Theorem record_scanner_embedded (pre post : bytes) (base_offset : Z)
  (z1 z2 z3 z4 a1 a2 a3 a4 : byte) :
  let data := embed pre z1 z2 z3 z4 a1 a2 a3 a4 post in
  exists cs,
    analyze_chunk fromtimestamp data base_offset = Ok cs /\
    NoDup (chunk_stats.record_starts cs) /\
    (forall o, In o (chunk_stats.record_starts cs) <->
       exists i, o = base_offset + i /\ 0 <= i < len data - 8 /\
                 record_signature data i = true) /\
    (In (base_offset + len pre) (chunk_stats.record_starts cs) <->
       [z1; z2; z3; z4] = [x00; x00; x00; x00] /\
       forallb byte_isalnum [a1; a2; a3; a4] = true /\
       post <> []) /\
    analyze_chunk fromtimestamp signature base_offset =
      Ok (chunk_stats.mk [] [] []) /\
    exists cs',
      analyze_chunk fromtimestamp (repeat xff 3 ++ signature) base_offset = Ok cs' /\
      chunk_stats.record_starts cs' = [].
Proof.
  intros data. eexists. split; [apply analyze_chunk_eq|].
  unfold chunk_result at 1 2 3. cbn [chunk_stats.record_starts].
  split; [|split; [|split; [|split]]].
  - apply sorted_NoDup, sorted_shift, sorted_filter, range_sorted.
  - intros o. apply In_record_starts.
  - rewrite In_record_starts. unfold data. rewrite len_embed. split.
    + intros [i [Hi [Hr Hsig]]]. assert (i = len pre) by lia. subst i.
      rewrite record_signature_embed in Hsig.
      apply andb_true_iff in Hsig. destruct Hsig as [Hz Ha].
      apply bytes_eqb_eq in Hz. split; [exact Hz|]. split; [exact Ha|].
      intros ->. unfold len in Hr. simpl in Hr. lia.
    + intros [Hz [Ha Hpost]]. exists (len pre). split; [reflexivity|]. split.
      * pose proof (len_nonneg pre). destruct post; [congruence|].
        rewrite len_cons. pose proof (len_nonneg post). lia.
      * rewrite record_signature_embed. apply andb_true_iff.
        split; [apply bytes_eqb_eq; exact Hz | exact Ha].
  - rewrite analyze_chunk_eq. reflexivity.
  - eexists. split; [apply analyze_chunk_eq | reflexivity].
Qed.






End Claims.

(** The state of the third loop after a closed prefix. *)
Lemma text_fold_prefix (base_offset : Z) (pre : bytes) :
  closed pre ->
  fold_left (text_step base_offset) pre (mk_text_state [] 0 []) =
  mk_text_state [] (len pre) (text_loop base_offset pre).
Proof.
  intros Hc.
  pose proof (text_fold_closed base_offset pre Hc) as Htr.
  pose proof (text_fold_pos base_offset pre (mk_text_state [] 0 [])) as Hpos.
  unfold text_loop.
  destruct (fold_left _ pre _) as [tr pos acc].
  cbn [text_region current_pos found_regions] in *. subst. reflexivity.
Qed.

(** The scan of a closed prefix, a run of text bytes, a byte that ends it,
    and the rest. *)
Lemma text_loop_run (base_offset : Z) (pre run post : bytes) (t : byte) :
  closed pre -> forallb is_text_byte run = true -> is_text_byte t = false ->
  text_loop base_offset (pre ++ run ++ t :: post) =
  text_loop base_offset pre ++
  (if 4 <? len run then [region_of base_offset (len pre) run] else []) ++
  text_loop (base_offset + (len pre + len run + 1)) post.
Proof.
  intros Hc Hrun Ht. unfold text_loop at 1.
  rewrite !fold_left_app. cbn [fold_left].
  rewrite text_fold_prefix by assumption.
  rewrite (text_fold_run base_offset run) by assumption.
  cbn [text_region current_pos found_regions app].
  rewrite text_step_close by assumption.
  rewrite text_fold_acc, <- app_assoc. do 2 f_equal.
  unfold text_loop.
  rewrite <- (text_fold_shift base_offset (len pre + len run + 1) post [] 0).
  reflexivity.
Qed.

(** C4. After a prefix that leaves no run open, a run of text bytes that
    is ended by a byte that is not a text byte adds one finding, at the
    absolute offset of its first byte, with its length and its characters,
    when it is longer than 4, and nothing otherwise. A finding at that
    offset is there exactly when the run is longer than 4. The five bytes
    of "hello" between two null bytes give one finding of length 5 and text
    "hello"; the four bytes of "hell" give none. *)
Theorem text_run_threshold (base_offset : Z) (pre run post : bytes) (t : byte) :
  closed pre -> forallb is_text_byte run = true -> is_text_byte t = false ->
  let found := text_loop base_offset (pre ++ run ++ t :: post) in
  found =
    text_loop base_offset pre ++
    (if 4 <? len run then [region_of base_offset (len pre) run] else []) ++
    text_loop (base_offset + (len pre + len run + 1)) post /\
  ((exists r, In r found /\ region.offset r = base_offset + len pre) <->
   4 < len run) /\
  (forall r, In r found -> region.offset r = base_offset + len pre ->
     r = region_of base_offset (len pre) run) /\
  text_loop base_offset ([x00] ++ [x68; x65; x6c; x6c; x6f] ++ x00 :: []) =
    [region.mk (base_offset + 1) 5 "hello"] /\
  text_loop base_offset ([x00] ++ [x68; x65; x6c; x6c] ++ x00 :: []) = [].
Proof.
  intros Hc Hrun Ht found.
  assert (Heq : found =
    text_loop base_offset pre ++
    (if 4 <? len run then [region_of base_offset (len pre) run] else []) ++
    text_loop (base_offset + (len pre + len run + 1)) post)
    by (apply text_loop_run; assumption).
  assert (Hat : forall r, In r found -> region.offset r = base_offset + len pre ->
            4 < len run /\ r = region_of base_offset (len pre) run).
  { intros r Hin Hoff. rewrite Heq in Hin.
    apply in_app_or in Hin. destruct Hin as [Hin|Hin].
    - apply text_loop_bounds in Hin. lia.
    - apply in_app_or in Hin. destruct Hin as [Hin|Hin].
      + destruct (Z.ltb_spec 4 (len run)); [|destruct Hin].
        destruct Hin as [<-|[]]. split; [assumption | reflexivity].
      + apply text_loop_bounds in Hin. pose proof (len_nonneg run). lia. }
  split; [exact Heq|]. split; [|split; [|split]].
  - split.
    + intros [r [Hin Hoff]]. apply (Hat r Hin Hoff).
    + intros Hlen. exists (region_of base_offset (len pre) run).
      split; [|reflexivity]. rewrite Heq. apply in_or_app. right.
      apply in_or_app. left. apply Z.ltb_lt in Hlen. rewrite Hlen. now left.
  - intros r Hin Hoff. apply (Hat r Hin Hoff).
  - rewrite text_loop_run;
      [reflexivity | right; exists [], x00; split; reflexivity
       | reflexivity | reflexivity].
  - rewrite text_loop_run;
      [reflexivity | right; exists [], x00; split; reflexivity
       | reflexivity | reflexivity].
Qed.

(** C5. A run of text bytes that is still open at the end of the chunk
    adds no finding, whatever its length: the findings of the chunk are
    those of the bytes before the run, and after a closed prefix each of
    them ends before the run starts. *)
Theorem trailing_run_dropped (base_offset : Z) (pre run : bytes) :
  forallb is_text_byte run = true ->
  text_loop base_offset (pre ++ run) = text_loop base_offset pre /\
  (closed pre ->
   forall r, In r (text_loop base_offset (pre ++ run)) ->
     region.offset r + region.length r < base_offset + len pre) /\
  text_loop base_offset run = [].
Proof.
  intros Hrun.
  assert (Heq : forall p, text_loop base_offset (p ++ run) = text_loop base_offset p).
  { intros p. unfold text_loop. rewrite fold_left_app.
    rewrite text_fold_run by assumption. reflexivity. }
  split; [apply Heq|]. split.
  - intros _ r Hin. rewrite Heq in Hin. apply text_loop_bounds in Hin. lia.
  - apply (Heq []).
Qed.


(** * Instances *)

(** C2 as it is stated fails for a count of seconds of 0. Position 0 of a
    chunk of nine null bytes is scanned; the four bytes there decode to 0,
    whose UTC date is in 1970, a year strictly between 1900 and 2100; and
    the call reports no timestamp finding. *)
Lemma epoch_zero_is_not_reported :
  let data := [x00; x00; x00; x00; x00; x00; x00; x00; x00] in
  In 0 (range_step 0 (len data - 8) 4) /\
  u32_at data 0 = 0 /\
  (exists date, fromtimestamp_utc (u32_at data 0) = Ok date /\
                year date = 1970 /\ 1900 < year date < 2100) /\
  exists dates,
    find_date_patterns fromtimestamp_utc data 0 = Ok dates /\
    timestamp_findings dates = [] /\
    ~ (timestamp_findings dates <> [] <->
       exists date, fromtimestamp_utc (u32_at data 0) = Ok date /\
                    1900 < year date < 2100).
Proof.
  intros data. split; [left; reflexivity|]. split; [reflexivity|].
  split; [eexists; split; [reflexivity|]; split; [reflexivity | simpl; lia]|].
  exists []. split; [reflexivity|]. split; [reflexivity|].
  intros [_ H]. apply H; [|reflexivity].
  eexists. split; [reflexivity | simpl; lia].
Qed.

(** The date scanner on the bytes [3a 07 00 00 ...]: the year 1850 and a
    count of 1850 seconds. *)
Lemma date_scanner_reports_1850 :
  let data := [x3a; x07; x00; x00; x00; x00; x00; x00; x00] in
  0 <= 0 /\ 0 + 4 <= len data /\
  exists dates,
    find_date_patterns fromtimestamp_utc data 0 = Ok dates /\
    (List.length dates <= 2)%nat /\
    year_findings dates = [(0, "Possible year: 1850"%string)] /\
    timestamp_findings dates <> [].
Proof.
  intros data.
  assert (H0 : 0 <= 0) by lia.
  assert (H4 : 0 + 4 <= len data) by (vm_compute; discriminate).
  split; [exact H0|]. split; [exact H4|].
  destruct (date_scanner_reports fromtimestamp_utc data 0 H0 H4)
    as [dates [Hd [_ [Hl [_ [_ [H1850 [_ [Hts _]]]]]]]]].
  exists dates. split; [exact Hd|]. split; [exact Hl|].
  split; [apply H1850; reflexivity|].
  apply Hts. split; [vm_compute; split; reflexivity|].
  eexists. split; [reflexivity|]. vm_compute. split; reflexivity.
Defined.

(** The guard on a chunk of null bytes. *)
Lemma epoch_bounds_guard_zero :
  let data := [x00; x00; x00; x00; x00; x00; x00; x00; x00] in
  0 <= 0 /\ 0 + 4 <= len data /\
  exists dates,
    find_date_patterns fromtimestamp_utc data 0 = Ok dates /\
    timestamp_findings dates = [].
Proof.
  intros data.
  assert (H0 : 0 <= 0) by lia.
  assert (H4 : 0 + 4 <= len data) by (vm_compute; discriminate).
  split; [exact H0|]. split; [exact H4|].
  destruct (epoch_bounds_guard fromtimestamp_utc data 0 H0 H4)
    as [dates [Hd [Hz _]]].
  exists dates. split; [exact Hd|]. apply Hz. left. reflexivity.
Defined.






(** The run "genealogy" after a null byte and before a line of nulls. *)
Lemma text_run_threshold_genealogy :
  let run := [x67; x65; x6e; x65; x61; x6c; x6f; x67; x79] in
  closed [x00] /\ forallb is_text_byte run = true /\ is_text_byte x00 = false /\
  text_loop 4096 ([x00] ++ run ++ x00 :: [x00; x00]) =
  [region.mk 4097 9 "genealogy"].
Proof.
  intros run.
  assert (Hc : closed [x00]) by (right; exists [], x00; split; reflexivity).
  assert (Hr : forallb is_text_byte run = true) by reflexivity.
  assert (Ht : is_text_byte x00 = false) by reflexivity.
  split; [exact Hc|]. split; [exact Hr|]. split; [exact Ht|].
  destruct (text_run_threshold 4096 [x00] run [x00; x00] x00 Hc Hr Ht)
    as [Heq _].
  rewrite Heq. reflexivity.
Defined.

(** The run "genealogy" at the end of a chunk. *)
Lemma trailing_run_dropped_genealogy :
  let run := [x67; x65; x6e; x65; x61; x6c; x6f; x67; x79] in
  forallb is_text_byte run = true /\
  text_loop 4096 ([x00] ++ run) = [] /\ text_loop 4096 run = [].
Proof.
  intros run.
  assert (Hr : forallb is_text_byte run = true) by reflexivity.
  split; [exact Hr|].
  destruct (trailing_run_dropped 4096 [x00] run Hr) as [Heq [_ Hall]].
  split; [rewrite Heq; reflexivity | exact Hall].
Defined.

(** * Further properties *)

(** ** Text findings are terminated runs *)

Lemma run_entries_app (pos : Z) (run : bytes) (b : byte) :
  run_entries pos (run ++ [b]) = run_entries pos run ++ [(pos + len run, chr b)].
Proof.
  revert pos. induction run as [|a run IH]; intros pos.
  - cbn [app run_entries]. rewrite len_nil, Z.add_0_r. reflexivity.
  - cbn [app run_entries]. rewrite IH, len_cons.
    replace (pos + 1 + len run) with (pos + (1 + len run)) by lia. reflexivity.
Qed.

Lemma terminated_run_snoc (base_offset : Z) (data : bytes) (b : byte) (f : region.t) :
  terminated_run base_offset data f -> terminated_run base_offset (data ++ [b]) f.
Proof.
  intros [pre [run [t [post [-> H]]]]].
  exists pre, run, t, (post ++ [b]). split; [|exact H].
  rewrite <- !app_assoc. reflexivity.
Qed.

(** The state of the third loop after the bytes [p]: the open run is the
    last run of text bytes of [p], and what was found are terminated runs
    of [p]. *)
Lemma text_fold_trace (base_offset : Z) (p : bytes) :
  exists q r,
    p = q ++ r /\ closed q /\ forallb is_text_byte r = true /\
    fold_left (text_step base_offset) p (mk_text_state [] 0 []) =
    mk_text_state (run_entries (len q) r) (len p)
      (found_regions (fold_left (text_step base_offset) p (mk_text_state [] 0 []))) /\
    forall f,
      In f (found_regions (fold_left (text_step base_offset) p (mk_text_state [] 0 []))) ->
      terminated_run base_offset p f.
Proof.
  induction p as [|b p IH] using rev_ind.
  - exists [], []. split; [reflexivity|]. split; [left; reflexivity|].
    split; [reflexivity|]. split; [reflexivity|]. intros f [].
  - destruct IH as [q [r [Hp [Hq [Hr [Hst Hf]]]]]].
    rewrite fold_left_app. cbn [fold_left]. rewrite Hst.
    set (acc := found_regions (fold_left (text_step base_offset) p
                                 (mk_text_state [] 0 []))) in *.
    destruct (is_text_byte b) eqn:Hb.
    + exists q, (r ++ [b]).
      split; [rewrite Hp, app_assoc; reflexivity|]. split; [exact Hq|].
      split; [rewrite forallb_app, Hr; cbn; rewrite Hb; reflexivity|].
      rewrite text_step_text by exact Hb.
      cbn [text_region current_pos found_regions].
      split.
      * rewrite run_entries_app, len_app, len_cons, len_nil.
        f_equal. do 2 f_equal. rewrite Hp, len_app. reflexivity.
      * intros f Hin. apply terminated_run_snoc, Hf, Hin.
    + exists (p ++ [b]), [].
      split; [rewrite app_nil_r; reflexivity|].
      split; [right; exists p, b; split; [reflexivity | exact Hb]|].
      split; [reflexivity|].
      rewrite text_step_close by exact Hb.
      cbn [found_regions run_entries]. split.
      * rewrite len_app, len_cons, len_nil. f_equal; lia.
      * intros f Hin. apply in_app_or in Hin. destruct Hin as [Hin|Hin].
        -- apply terminated_run_snoc, Hf, Hin.
        -- destruct (Z.ltb_spec 4 (len r)) as [H4|H4]; [|destruct Hin].
           destruct Hin as [<-|[]].
           exists q, r, b, []. rewrite Hp, <- app_assoc.
           repeat (split; [first [reflexivity | assumption]|]). reflexivity.
Qed.

(** X1. The text findings of a chunk are exactly the runs of text bytes
    that are longer than 4, start at the beginning of the chunk or after a
    byte that is not a text byte, and are ended by such a byte inside the
    chunk; each carries the absolute offset of the first byte of its run,
    the length of the run and its characters. *)
Theorem text_findings_are_terminated_runs (base_offset : Z) (data : bytes)
  (f : region.t) :
  In f (text_loop base_offset data) <->
  exists pre run t post,
    data = pre ++ run ++ t :: post /\
    closed pre /\ forallb is_text_byte run = true /\ is_text_byte t = false /\
    4 < len run /\
    f = region.mk (base_offset + len pre) (len run) (join (map chr run)) /\
    py_slice data (len pre) (len pre + len run) = run.
Proof.
  split.
  - intros Hin. unfold text_loop in Hin.
    destruct (text_fold_trace base_offset data) as [_ [_ [_ [_ [_ [_ Hf]]]]]].
    destruct (Hf f Hin) as [pre [run [t [post [Hd [Hc [Hr [Ht [H4 Hreg]]]]]]]]].
    exists pre, run, t, post.
    split; [exact Hd|]. split; [exact Hc|]. split; [exact Hr|].
    split; [exact Ht|]. split; [exact H4|]. split; [exact Hreg|].
    rewrite Hd. apply py_slice_app_mid.
  - intros [pre [run [t [post [-> [Hc [Hr [Ht [H4 [-> _]]]]]]]]]].
    rewrite text_loop_run by assumption.
    apply in_or_app. right. apply in_or_app. left.
    apply Z.ltb_lt in H4. rewrite H4. left. reflexivity.
Qed.

(** ** The order of the findings *)


Lemma sorted_one {A : Type} (R : A -> A -> Prop) (x : A) :
  StronglySorted R [x].
Proof. constructor; constructor. Qed.





Section Order.

Variable fromtimestamp : Z -> result datetime.





End Order.

(** ** The chunks of a file *)

Lemma len_py_slice_gen {A : Type} (l : list A) (a b : Z) :
  len (py_slice l a b) =
  Z.max 0 (slice_index (len l) b - slice_index (len l) a).
Proof.
  unfold py_slice. set (n := len l).
  assert (Hi : forall i, 0 <= slice_index n i <= n).
  { intros i. unfold slice_index. pose proof (len_nonneg l) as H. fold n in H.
    destruct (Z.ltb_spec i 0); lia. }
  pose proof (Hi a) as Ha. pose proof (Hi b) as Hb.
  unfold len at 1. rewrite length_firstn, length_skipn.
  unfold n, len in *. lia.
Qed.

Lemma py_slice_py_slice {A : Type} (l : list A) (a b i j : Z) :
  0 <= a -> a <= b -> b <= len l -> 0 <= i -> i <= j -> j <= b - a ->
  py_slice (py_slice l a b) i j = py_slice l (a + i) (a + j).
Proof.
  intros Ha Hab Hb Hi Hij Hj.
  rewrite (py_slice_eq (py_slice l a b)) by (rewrite ?len_py_slice; lia).
  rewrite (py_slice_eq l a b), (py_slice_eq l (a + i) (a + j)) by lia.
  rewrite skipn_firstn_comm, firstn_firstn, skipn_skipn.
  f_equal; [|f_equal]; lia.
Qed.

(** A read of a positive size is the slice [content[pos:pos+size]]. *)
Lemma read_positive (content : bytes) (pos size : Z) :
  0 < size -> 0 <= pos ->
  fst (read (mk_file content pos) size) = py_slice content pos (pos + size).
Proof.
  intros Hs Hp. unfold read. cbn [fst contents position].
  destruct (Z.ltb_spec size 0); [lia|].
  unfold py_slice, slice_index.
  destruct (Z.ltb_spec pos 0); [lia|]. destruct (Z.ltb_spec (pos + size) 0); [lia|].
  destruct (Z.le_gt_cases pos (len content)) as [Hle|Hgt].
  - rewrite (Z.min_l pos) by lia.
    destruct (Z.le_gt_cases (pos + size) (len content)).
    + rewrite Z.min_l by lia. f_equal. lia.
    + rewrite Z.min_r by lia.
      rewrite !firstn_all2; [reflexivity | |];
        rewrite length_skipn; unfold len in *; lia.
  - rewrite !skipn_all2 by (unfold len in *; lia).
    rewrite !firstn_nil. reflexivity.
Qed.

Section Chunks.

Variable chunk_size : Z.
Variable content : bytes.


(** With a positive chunk size the chunks start at the multiples of the
    chunk size below the size of the file, and each is the slice
    [content[base:base+chunk_size]]. *)
Lemma chunks_read_bases (fuel : nat) :
  0 < chunk_size ->
  forall pos,
  0 <= pos ->
  (List.length content - Z.to_nat pos < fuel)%nat ->
  forall base chunk,
  In (base, chunk) (chunks_read chunk_size (len content) fuel
                                (mk_file content pos) pos) <->
  (exists k, 0 <= k /\ base = pos + k * chunk_size) /\
  base < len content /\
  chunk = py_slice content base (base + chunk_size).
Proof.
  intros Hcs. induction fuel as [|fuel IH]; intros pos Hpos Hfuel base chunk; [lia|].
  cbn [chunks_read].
  destruct (Z.ltb_spec pos (len content)) as [Hlt|Hge].
  - pose proof (read_positive content pos chunk_size Hcs Hpos) as Hfst.
    destruct (read (mk_file content pos) chunk_size) as [c f'] eqn:Hread.
    cbn [fst] in Hfst.
    assert (Hlen : len c = Z.min chunk_size (len content - pos)).
    { rewrite Hfst, len_py_slice_gen. unfold slice_index.
      destruct (Z.ltb_spec pos 0); [lia|].
      destruct (Z.ltb_spec (pos + chunk_size) 0); lia. }
    assert (Hf' : f' = mk_file content (pos + len c)).
    { unfold read in Hread. cbn [contents position] in Hread.
      injection Hread as <- <-. reflexivity. }
    destruct c as [|b c]; [rewrite len_nil in Hlen; lia|].
    subst f'. split.
    + intros [[= <- <-]|Hin].
      * split; [exists 0; lia|]. split; [exact Hlt | exact Hfst].
      * apply IH in Hin; [| lia | unfold len in *; cbn [List.length] in *; lia].
        destruct Hin as [[k [Hk ->]] [Hb Hc]].
        split; [|split; [exact Hb | exact Hc]].
        exists (k + 1). split; [lia|].
        destruct (Z.min_spec chunk_size (len content - pos)) as [[_ E]|[_ E]];
          rewrite E in Hlen; nia.
    + intros [[k [Hk ->]] [Hb ->]].
      destruct (Z.eq_dec k 0) as [->|Hk0].
      * left. replace (pos + 0 * chunk_size) with pos by lia.
        rewrite Hfst. reflexivity.
      * right.
        assert (Hfull : len (b :: c) = chunk_size)
          by (destruct (Z.min_spec chunk_size (len content - pos)) as [[_ E]|[_ E]];
              rewrite E in Hlen; nia).
        apply IH; [lia | unfold len in *; cbn [List.length] in *; lia|].
        split; [|split; [exact Hb | reflexivity]].
        exists (k - 1). split; [lia|]. nia.
  - split; [intros []|]. intros [[k [Hk ->]] [Hb _]]. nia.
Qed.


Lemma file_chunks_bases (base : Z) (chunk : bytes) :
  0 < chunk_size ->
  In (base, chunk) (file_chunks chunk_size content) <->
  0 <= base < len content /\ base mod chunk_size = 0 /\
  chunk = py_slice content base (base + chunk_size).
Proof.
  intros Hcs. unfold file_chunks. rewrite chunks_read_bases by lia. split.
  - intros [[k [Hk ->]] [Hb Hc]]. split; [nia|]. split; [|exact Hc].
    rewrite Z.add_0_l. apply Z.mod_mul. lia.
  - intros [Hb [Hm Hc]]. split; [|split; [lia | exact Hc]].
    exists (base / chunk_size). split; [apply Z.div_pos; lia|].
    rewrite Z.add_0_l, Z.mul_comm. apply Z.div_exact; lia.
Qed.


End Chunks.

Section Walk.

Variable fromtimestamp : Z -> result datetime.




End Walk.

(** ** Chunks and the record scan *)



Section ChunkedRecords.

Variable fromtimestamp : Z -> result datetime.


End ChunkedRecords.

(** ** Chunks and the date scan *)

Lemma u32_at_slice (content : bytes) (a b i : Z) :
  0 <= a -> a <= b -> b <= len content -> 0 <= i -> i + 4 <= b - a ->
  u32_at (py_slice content a b) i = u32_at content (a + i).
Proof.
  intros. unfold u32_at. rewrite py_slice_py_slice by lia.
  replace (a + (i + 4)) with (a + i + 4) by lia. reflexivity.
Qed.

Lemma u16_at_slice (content : bytes) (a b i : Z) :
  0 <= a -> a <= b -> b <= len content -> 0 <= i -> i + 2 <= b - a ->
  u16_at (py_slice content a b) i = u16_at content (a + i).
Proof.
  intros. unfold u16_at. rewrite py_slice_py_slice by lia.
  replace (a + (i + 2)) with (a + i + 2) by lia. reflexivity.
Qed.

Section ChunkedDates.

Variable fromtimestamp : Z -> result datetime.

(** What the date scan finds at a position of a chunk, with the base of
    the chunk added, is what it finds at that position of the file. *)
Lemma dates_at_chunk (content chunk : bytes) (base i : Z) :
  chunk_of content base chunk -> 0 <= i -> i + 4 <= len chunk ->
  map (fun '(offset, desc) => (base + offset, desc))
      (dates_at fromtimestamp chunk i) =
  dates_at fromtimestamp content (base + i).
Proof.
  intros [_ [Hb [Hl Hc]]] Hi Hi4. unfold dates_at.
  rewrite Hc at 1 2.
  rewrite u32_at_slice, u16_at_slice by lia.
  rewrite map_app. unfold stamp_part, year_part.
  destruct ((0 <? _) && _); [destruct (fromtimestamp _) as [date|e];
    [destruct ((1900 <? _) && _)|]|];
    destruct ((1800 <? _) && _); reflexivity.
Qed.

Lemma In_date_patterns (data : bytes) (base_offset : Z) (p : date_pattern) :
  In p (chunk_stats.date_patterns (chunk_result fromtimestamp data base_offset)) <->
  exists i,
    0 <= i < len data - 8 /\ i mod 4 = 0 /\ fst p = base_offset + i /\
    In (i, snd p) (dates_at fromtimestamp data i).
Proof.
  cbn [chunk_result chunk_stats.date_patterns]. rewrite in_flat_map. split.
  - intros [i [Hi Hp]]. apply In_range_step in Hi; [|lia].
    apply in_map_iff in Hp. destruct Hp as [[o d] [<- Hq]].
    pose proof (dates_at_fst fromtimestamp data i _ Hq) as Ho.
    cbn [fst snd] in *. subst o. exists i. repeat split; try lia. exact Hq.
  - intros [i [Hi [Hm [Ho Hq]]]]. exists i.
    split; [apply In_range_step; [lia | split; [lia | exact Hm]]|].
    apply in_map_iff. exists (i, snd p). split; [|exact Hq].
    destruct p as [o d]. cbn [fst snd] in *. subst o. reflexivity.
Qed.

(** X7. The date scan of a chunk calls [find_date_patterns] at the
    positions of the chunk that are multiples of 4 and lie below
    [len(data) - 8], and nowhere else: the date findings of the chunk are
    what these calls return, with the base of the chunk added to the
    position. A chunk of at most 8 bytes has no date finding, and no date
    finding lies in the last 8 bytes of a chunk. *)
Theorem date_scan_positions (data : bytes) (base_offset : Z) :
  exists cs,
    analyze_chunk fromtimestamp data base_offset = Ok cs /\
    (forall o desc,
       In (o, desc) (chunk_stats.date_patterns cs) <->
       exists i dates,
         0 <= i < len data - 8 /\ i mod 4 = 0 /\ o = base_offset + i /\
         find_date_patterns fromtimestamp data i = Ok dates /\
         In (i, desc) dates) /\
    (len data <= 8 -> chunk_stats.date_patterns cs = []).
Proof.
  eexists. split; [apply analyze_chunk_eq|]. split.
  - intros o desc. rewrite In_date_patterns. cbn [fst snd]. split.
    + intros [i [Hi [Hm [Ho Hq]]]].
      exists i, (dates_at fromtimestamp data i).
      split; [exact Hi|]. split; [exact Hm|]. split; [exact Ho|].
      split; [apply find_date_patterns_at; lia | exact Hq].
    + intros [i [dates [Hi [Hm [Ho [Hd Hq]]]]]]. exists i.
      split; [exact Hi|]. split; [exact Hm|]. split; [exact Ho|].
      rewrite find_date_patterns_at in Hd by lia. injection Hd as <-. exact Hq.
  - intros Hlen. cbn [chunk_result chunk_stats.date_patterns].
    unfold range_step.
    replace (Z.to_nat ((len data - 8 - 0 + 4 - 1) / 4)) with O; [reflexivity|].
    assert ((len data - 8 - 0 + 4 - 1) / 4 <= 0); [|lia].
    apply Z.lt_succ_r. apply Z.div_lt_upper_bound; lia.
Qed.

(** X8. With a positive chunk size that is a multiple of 4, as the
    default is, the date findings of the scan of a file are at offsets of
    the file that are multiples of 4, and each is a date finding of the
    analysis of the entire file as one chunk: it is found by the scan
    exactly when more than 8 bytes of its chunk start at it. *)
Theorem chunking_only_loses_dates (fs : filesystem) (filepath : string)
  (chunk_size : Z) (content : bytes) :
  fs filepath = Some content -> 0 < chunk_size -> chunk_size mod 4 = 0 ->
  exists st whole,
    analyze_binary_file fromtimestamp fs filepath chunk_size = Some (Ok st) /\
    analyze_chunk fromtimestamp content 0 = Ok whole /\
    (forall p, In p (stats.date_patterns st) -> fst p mod 4 = 0) /\
    (forall p,
       In p (stats.date_patterns st) <->
       In p (chunk_stats.date_patterns whole) /\
       fst p mod chunk_size + 8 <
       Z.min chunk_size (len content - (fst p - fst p mod chunk_size))).
Proof.
  intros Hfs Hcs Hcs4. eexists. eexists.
  split; [apply analyze_binary_file_eq; exact Hfs|].
  split; [apply analyze_chunk_eq|].
  rewrite merge_all_eq. cbn [stats.date_patterns app].
  destruct (file_chunks_spec chunk_size content) as [_ Hof].
  assert (Hbase4 : forall base chunk,
            In (base, chunk) (file_chunks chunk_size content) -> base mod 4 = 0).
  { intros base chunk Hc.
    apply (file_chunks_bases chunk_size content base chunk Hcs) in Hc.
    destruct Hc as [_ [Hm _]].
    apply Z.mod_divide in Hm; [|lia]. apply Z.mod_divide in Hcs4; [|lia].
    apply Z.mod_divide; [lia|]. apply (Z.divide_trans _ chunk_size); assumption. }
  assert (Hfound : forall p,
    In p (flat_map (fun '(base, chunk) =>
            chunk_stats.date_patterns (chunk_result fromtimestamp chunk base))
            (file_chunks chunk_size content)) <->
    exists base chunk i,
      In (base, chunk) (file_chunks chunk_size content) /\
      0 <= i < len chunk - 8 /\ i mod 4 = 0 /\ fst p = base + i /\
      In p (dates_at fromtimestamp content (base + i))).
  { intros p. rewrite in_flat_map. split.
    - intros [[base chunk] [Hc Hin]]. apply In_date_patterns in Hin.
      destruct Hin as [i [Hi [Hm [Ho Hq]]]]. exists base, chunk, i.
      split; [exact Hc|]. split; [exact Hi|]. split; [exact Hm|].
      split; [exact Ho|].
      rewrite <- (dates_at_chunk content chunk base i (Hof _ _ Hc)) by lia.
      apply in_map_iff. exists (i, snd p). split; [|exact Hq].
      destruct p as [o d]. cbn [fst snd] in *. subst o. reflexivity.
    - intros [base [chunk [i [Hc [Hi [Hm [Ho Hq]]]]]]]. exists (base, chunk).
      split; [exact Hc|]. apply In_date_patterns. exists i.
      split; [exact Hi|]. split; [exact Hm|]. split; [exact Ho|].
      rewrite <- (dates_at_chunk content chunk base i (Hof _ _ Hc)) in Hq by lia.
      apply in_map_iff in Hq. destruct Hq as [[o d] [<- Hq]].
      pose proof (dates_at_fst fromtimestamp chunk i _ Hq) as Hfst.
      cbn [fst snd] in *. subst o. exact Hq. }
  split.
  - intros p Hin. apply Hfound in Hin.
    destruct Hin as [base [chunk [i [Hc [Hi [Hm [-> _]]]]]]].
    rewrite Z.add_mod, (Hbase4 _ _ Hc), Hm by lia. reflexivity.
  - intros p. rewrite Hfound, In_date_patterns. split.
    + intros [base [chunk [i [Hc [Hi [Hm [Ho Hq]]]]]]].
      pose proof (Hbase4 _ _ Hc) as Hb4.
      destruct (Hof _ _ Hc) as [_ [Hb [Hl _]]].
      apply (file_chunks_bases chunk_size content base chunk Hcs) in Hc.
      destruct Hc as [Hb' [Hmod ->]].
      rewrite len_py_slice_gen in Hi, Hl. unfold slice_index in Hi, Hl.
      destruct (Z.ltb_spec base 0); [lia|].
      destruct (Z.ltb_spec (base + chunk_size) 0); [lia|].
      assert (Him : (base + i) mod chunk_size = i).
      { rewrite Z.add_mod, Hmod, Z.add_0_l, Z.mod_mod by lia.
        apply Z.mod_small. lia. }
      rewrite Ho, Him. replace (base + i - i) with base by lia.
      split; [|lia]. exists (base + i). split; [lia|].
      split; [rewrite Z.add_mod, Hb4, Hm by lia; reflexivity|].
      split; [lia|].
      destruct p as [o d]. cbn [fst snd] in *. rewrite Ho in Hq. exact Hq.
    + intros [[o [Ho [Hm4 [Hfst Hq]]]] Hcond]. rewrite Z.add_0_l in Hfst.
      rewrite Hfst in Hcond.
      pose proof (Z.mod_pos_bound o chunk_size Hcs) as Hm.
      pose proof (Z.div_mod o chunk_size ltac:(lia)) as Hd.
      set (i := o mod chunk_size) in *.
      set (base := o - i) in *.
      assert (Hbase : base = chunk_size * (o / chunk_size)) by (unfold base; lia).
      assert (Hq0 : 0 <= o / chunk_size) by (apply Z.div_pos; lia).
      assert (Hbm : base mod chunk_size = 0)
        by (rewrite Hbase, Z.mul_comm; apply Z.mod_mul; lia).
      assert (Hc : In (base, py_slice content base (base + chunk_size))
                      (file_chunks chunk_size content)).
      { apply file_chunks_bases; [exact Hcs|].
        split; [nia|]. split; [exact Hbm | reflexivity]. }
      exists base, (py_slice content base (base + chunk_size)), i.
      split; [exact Hc|]. split; [|split; [|split]].
      * rewrite len_py_slice_gen. unfold slice_index.
        destruct (Z.ltb_spec base 0); [nia|].
        destruct (Z.ltb_spec (base + chunk_size) 0); [lia|]. lia.
      * assert (Hb4 := Hbase4 _ _ Hc).
        assert (Ho4 : (base + i) mod 4 = 0)
          by (replace (base + i) with o by (unfold base; lia); exact Hm4).
        rewrite Z.add_mod, Hb4, Z.add_0_l, Z.mod_mod in Ho4 by lia. exact Ho4.
      * unfold base. lia.
      * replace (base + i) with o by (unfold base; lia).
        destruct p as [o' d]. cbn [fst snd] in *. subst o'. exact Hq.
Qed.

End ChunkedDates.

(** ** The histogram as a dictionary *)









Lemma len_flat_map {A B : Type} (g : A -> list B) (l : list A) :
  len (flat_map g l) = fold_right (fun a acc => len (g a) + acc) 0 l.
Proof.
  induction l as [|a l IH]; [reflexivity|].
  cbn [flat_map fold_right]. rewrite len_app, IH. reflexivity.
Qed.


Section Histogram.

Variable fromtimestamp : Z -> result datetime.


End Histogram.

(** ** The date scanner at the edges *)

Lemma byte_val_bounds (b : byte) : 0 <= byte_val b < 256.
Proof.
  unfold byte_val. pose proof (Byte.to_N_bounded b). lia.
Qed.

Lemma le_decode_bounds (bs : bytes) : 0 <= le_decode bs < 256 ^ len bs.
Proof.
  induction bs as [|b bs IH]; [cbn; lia|].
  cbn [le_decode]. rewrite len_cons.
  rewrite Z.pow_add_r by (pose proof (len_nonneg bs); lia).
  pose proof (byte_val_bounds b). change (256 ^ 1) with 256. nia.
Qed.

Section DateEdges.

Variable fromtimestamp : Z -> result datetime.

(** X10. With fewer than four bytes from the position to the end of the
    data, [find_date_patterns] does not decode a count of seconds and does
    not consult the platform: with two or three bytes it returns the year
    finding alone, under the usual test, and with fewer than two bytes it
    returns no finding. *)
Theorem date_scanner_short_data (data : bytes) (offset : Z) :
  0 <= offset -> len data < offset + 4 ->
  exists dates,
    find_date_patterns fromtimestamp data offset = Ok dates /\
    find_date_patterns (fun _ => Raise ValueError) data offset = Ok dates /\
    timestamp_findings dates = [] /\
    (len data < offset + 2 -> dates = []) /\
    (offset + 2 <= len data ->
     (dates <> [] <-> 1800 < u16_at data offset < 2100) /\
     (dates <> [] -> dates = [(offset, year_desc (u16_at data offset))])).
Proof.
  intros H0 H4.
  assert (Heq : forall ft, find_date_patterns ft data offset =
    if offset + 2 <=? len data
    then Ok (year_part offset (u16_at data offset)) else Ok []).
  { intros ft. unfold find_date_patterns.
    destruct (Z.leb_spec (offset + 4) (len data)); [lia|]. cbn [bind].
    destruct (Z.leb_spec (offset + 2) (len data)); [|reflexivity].
    unfold unpack_H. rewrite unpack_le_slice by lia. cbn [bind].
    fold (u16_at data offset). unfold year_part.
    destruct ((1800 <? _) && _); reflexivity. }
  rewrite !Heq.
  destruct (Z.leb_spec (offset + 2) (len data)) as [H2|H2].
  - eexists. split; [reflexivity|]. split; [reflexivity|].
    unfold year_part.
    pose proof (in_range_bool 1800 2100 (u16_at data offset)) as Hy.
    destruct ((1800 <? u16_at data offset) && (u16_at data offset <? 2100)).
    + split; [reflexivity|]. split; [lia|]. intros _. split; [|reflexivity].
      split; [intros _; apply Hy; reflexivity | discriminate].
    + split; [reflexivity|]. split; [reflexivity|]. intros _. split; [|congruence].
      split; [congruence|]. intros Hr. apply Hy in Hr. discriminate.
  - exists []. split; [reflexivity|]. split; [reflexivity|].
    split; [reflexivity|]. split; [reflexivity | lia].
Qed.

(** X11. [find_date_patterns] is not written for a negative position.
    At a position from -4 to -1 the test on the length passes, the slice,
    which Python takes from the end of the data, has the wrong size, and
    [struct.unpack] raises [struct.error], outside the [try]: the call
    raises, except at -1 on empty data, where both tests on the length
    fail. *)
Theorem date_scanner_negative_offset (data : bytes) (offset : Z) :
  -4 <= offset < 0 -> data <> [] \/ offset <= -2 ->
  find_date_patterns fromtimestamp data offset = Raise StructError.
Proof.
  intros Hoff Hdata.
  assert (Hlen : 0 <= len data) by apply len_nonneg.
  assert (Hne : offset = -1 -> 0 < len data).
  { intros ->. destruct Hdata as [Hd|Hd]; [|lia].
    destruct data; [congruence|]. rewrite len_cons.
    pose proof (len_nonneg data). lia. }
  unfold find_date_patterns, unpack_I, unpack_H, unpack_le.
  destruct (Z.leb_spec (offset + 4) (len data)) as [H4|H4].
  - destruct (Z.eqb_spec (len (py_slice data offset (offset + 4))) 4) as [E|E];
      [|reflexivity].
    rewrite len_py_slice_gen in E. unfold slice_index in E.
    destruct (Z.ltb_spec (offset + 4) 0); destruct (Z.ltb_spec offset 0); lia.
  - cbn [bind]. destruct (Z.leb_spec (offset + 2) (len data)) as [H2|H2].
    + destruct (Z.eqb_spec (len (py_slice data offset (offset + 2))) 2) as [E|E];
        [|reflexivity].
      rewrite len_py_slice_gen in E. unfold slice_index in E.
      destruct (Z.ltb_spec (offset + 2) 0); destruct (Z.ltb_spec offset 0); lia.
    + assert (offset = -1) by lia. specialize (Hne H). lia.
Qed.

(** X12. The two values that [find_date_patterns] decodes at a position
    overlap: the count of seconds is below 2**32 and the year is its low 16
    bits. So the year finding is there exactly when the count of seconds
    modulo 65536 lies strictly between 1800 and 2100, and a count of
    seconds strictly between 1800 and 2100, which every platform with such
    dates puts in a year between 1900 and 2100, is reported twice, as a
    timestamp and as a year. *)
Theorem year_is_low_half_of_timestamp (data : bytes) (offset : Z) :
  0 <= offset -> offset + 4 <= len data ->
  exists dates,
    find_date_patterns fromtimestamp data offset = Ok dates /\
    0 <= u32_at data offset < 2 ^ 32 /\
    u16_at data offset = u32_at data offset mod 65536 /\
    (year_findings dates <> [] <-> 1800 < u32_at data offset mod 65536 < 2100) /\
    (1800 < u32_at data offset < 2100 ->
     forall date,
       fromtimestamp (u32_at data offset) = Ok date ->
       1900 < year date < 2100 ->
       dates = [(offset, timestamp_desc date);
                (offset, year_desc (u32_at data offset))]).
Proof.
  intros H0 H4.
  assert (H32 : 0 <= u32_at data offset < 2 ^ 32).
  { unfold u32_at. pose proof (le_decode_bounds (py_slice data offset (offset + 4))) as H.
    rewrite len_py_slice in H by lia.
    replace (offset + 4 - offset) with 4 in H by lia. exact H. }
  assert (H16 : u16_at data offset = u32_at data offset mod 65536).
  { unfold u16_at, u32_at.
    replace (py_slice data offset (offset + 2))
      with (py_slice (py_slice data offset (offset + 4)) 0 2)
      by (rewrite py_slice_py_slice by lia; f_equal; lia).
    pose proof (len_py_slice data offset (offset + 4) H0 ltac:(lia) H4) as Hl.
    destruct (py_slice data offset (offset + 4)) as [|b0 [|b1 [|b2 [|b3 [|b4 t]]]]];
      try (unfold len in Hl; cbn [List.length] in Hl; lia).
    cbn [py_slice slice_index len List.length Z.of_nat Z.ltb Z.compare
         Z.min Z.sub Z.add Z.opp Z.to_nat skipn firstn].
    change (py_slice [b0; b1; b2; b3] 0 2) with [b0; b1].
    cbn [le_decode].
    pose proof (byte_val_bounds b0). pose proof (byte_val_bounds b1).
    pose proof (byte_val_bounds b2). pose proof (byte_val_bounds b3).
    apply (Z.mod_unique _ _ (byte_val b2 + 256 * byte_val b3)); lia. }
  eexists. split; [apply find_date_patterns_eq; assumption|].
  split; [exact H32|]. split; [exact H16|].
  rewrite year_findings_parts. rewrite <- H16. unfold year_part.
  pose proof (in_range_bool 1800 2100 (u16_at data offset)) as Hy.
  split.
  - destruct ((1800 <? u16_at data offset) && (u16_at data offset <? 2100)).
    + split; [intros _; apply Hy; reflexivity | discriminate].
    + split; [congruence|]. intros Hr. apply Hy in Hr. discriminate.
  - intros Hr date Hd Hyr.
    assert (Hu : u16_at data offset = u32_at data offset)
      by (rewrite H16; apply Z.mod_small; lia).
    unfold stamp_part. rewrite Hd.
    assert (Hts : (0 <? u32_at data offset) && (u32_at data offset <? 0xFFFFFFFF) = true)
      by (apply in_range_bool; lia).
    rewrite Hts. apply in_range_bool in Hyr. rewrite Hyr.
    rewrite Hu in Hy |- *. apply Hy in Hr. rewrite Hr. reflexivity.
Qed.

End DateEdges.

(** ** The samples of the report *)

Lemma startswith_iff (p s : string) :
  startswith p s = true <-> exists rest, s = (p ++ rest)%string.
Proof.
  revert s. induction p as [|a p IH]; intros s; cbn [startswith].
  - split; [intros _; exists s; reflexivity | reflexivity].
  - destruct s as [|b s].
    + split; [discriminate | intros [rest E]; discriminate E].
    + rewrite andb_true_iff, Ascii.eqb_eq, IH. split.
      * intros [-> [rest ->]]. exists rest. reflexivity.
      * intros [rest E]. cbn in E. injection E as -> ->.
        split; [reflexivity | exists rest; reflexivity].
Qed.

(** [contains s word] holds exactly when [word] occurs in [s]. *)
Lemma contains_iff (s word : string) :
  contains s word = true <->
  exists before after, s = (before ++ word ++ after)%string.
Proof.
  induction s as [|c s IH]; cbn [contains]; rewrite orb_true_iff, startswith_iff.
  - split.
    + intros [[rest E]|H]; [|discriminate]. exists EmptyString, rest. exact E.
    + intros [before [after E]]. left. destruct before as [|b before].
      * exists after. exact E.
      * discriminate E.
  - rewrite IH. split.
    + intros [[rest E]|[before [after E]]].
      * exists EmptyString, rest. exact E.
      * exists (String c before), after. cbn. rewrite E. reflexivity.
    + intros [before [after E]]. destruct before as [|b before].
      * left. exists after. exact E.
      * right. cbn in E. injection E as _ E. exists before, after. exact E.
Qed.

Lemma keyword_loop_eq (regions : list region.t) :
  forall shown printed,
  shown < 10 ->
  keyword_loop regions shown printed =
  printed ++ map region_line
               (firstn (Z.to_nat (10 - shown)) (filter mentions_keyword regions)).
Proof.
  induction regions as [|r regions IH]; intros shown printed Hs.
  - cbn. rewrite firstn_nil. cbn. rewrite app_nil_r. reflexivity.
  - cbn [keyword_loop filter]. destruct (mentions_keyword r).
    + replace (Z.to_nat (10 - shown)) with (S (Z.to_nat (10 - (shown + 1)))) by lia.
      cbn [firstn map].
      destruct (Z.leb_spec 10 (shown + 1)) as [Hge|Hlt].
      * replace (Z.to_nat (10 - (shown + 1))) with O by lia. reflexivity.
      * rewrite IH by lia. rewrite <- app_assoc. reflexivity.
    + apply IH. exact Hs.
Qed.

(** X13. The last part of the report prints its title and then the text
    regions that mention a keyword, in the order of the scan, the first ten
    of them at most: a region is printed exactly when one of the seven
    keywords occurs in its text once the text is put in lower case. *)
Theorem text_sample_is_first_ten (st : stats.t) :
  text_report st =
    (newline ++ "Sample of text regions that might contain genealogical data:")%string ::
    map region_line (firstn 10 (filter mentions_keyword (stats.text_regions st))) /\
  (List.length (text_report st) <= 11)%nat /\
  (forall region,
     mentions_keyword region = true <->
     exists word before after,
       In word ["birth"; "death"; "name"; "date"; "place"; "family"; "married"]%string /\
       lower (region.text region) = (before ++ word ++ after)%string).
Proof.
  assert (Heq : text_report st =
    (newline ++ "Sample of text regions that might contain genealogical data:")%string ::
    map region_line (firstn 10 (filter mentions_keyword (stats.text_regions st)))).
  { unfold text_report. rewrite keyword_loop_eq by lia. reflexivity. }
  split; [exact Heq|]. split.
  - rewrite Heq. cbn [List.length]. rewrite length_map, length_firstn. lia.
  - intros region. unfold mentions_keyword, genealogy_keywords.
    rewrite existsb_exists. split.
    + intros [word [Hin Hc]]. apply contains_iff in Hc.
      destruct Hc as [before [after E]]. exists word, before, after. auto.
    + intros [word [before [after [Hin E]]]]. exists word.
      split; [exact Hin|]. apply contains_iff. exists before, after. exact E.
Qed.



Lemma py_slice_prefix {A : Type} (l : list A) (n : Z) :
  0 <= n -> py_slice l 0 n = firstn (Z.to_nat n) l.
Proof.
  intros Hn. unfold py_slice, slice_index. pose proof (len_nonneg l).
  destruct (Z.ltb_spec 0 0); [lia|]. destruct (Z.ltb_spec n 0); [lia|].
  rewrite (Z.min_l 0) by lia. cbn [Z.to_nat skipn]. rewrite Z.sub_0_r.
  destruct (Z.le_gt_cases n (len l)).
  - rewrite Z.min_l by lia. reflexivity.
  - rewrite Z.min_r by lia. unfold len in *.
    rewrite !firstn_all2 by lia. reflexivity.
Qed.

Section DateSample.

Variable fromtimestamp : Z -> result datetime.


End DateSample.

Lemma count_insert_perm (x : Z * Z) (l : list (Z * Z)) :
  Permutation (count_insert x l) (x :: l).
Proof.
  induction l as [|y l IH]; cbn [count_insert]; [reflexivity|].
  destruct (snd y <=? snd x); [reflexivity|].
  rewrite IH. apply perm_swap.
Qed.

Lemma by_count_perm (c : Counter) : Permutation (by_count c) c.
Proof.
  induction c as [|x c IH]; cbn [by_count]; [reflexivity|].
  rewrite count_insert_perm, IH. reflexivity.
Qed.

Lemma count_insert_sorted (x : Z * Z) (l : list (Z * Z)) :
  StronglySorted (fun a b => snd b <= snd a) l ->
  StronglySorted (fun a b => snd b <= snd a) (count_insert x l).
Proof.
  induction 1 as [|y l Hs IH Hy]; cbn [count_insert].
  - apply sorted_one.
  - destruct (Z.leb_spec (snd y) (snd x)) as [Hle|Hgt].
    + constructor; [constructor; assumption|].
      constructor; [exact Hle|].
      rewrite Forall_forall in *. intros z Hz. specialize (Hy z Hz). lia.
    + constructor; [exact IH|].
      rewrite Forall_forall in *. intros z Hz.
      apply (Permutation_in _ (count_insert_perm x l)) in Hz.
      destruct Hz as [<-|Hz]; [lia | apply Hy, Hz].
Qed.

Lemma by_count_sorted (c : Counter) :
  StronglySorted (fun a b => snd b <= snd a) (by_count c).
Proof.
  induction c as [|x c IH]; cbn [by_count]; [constructor|].
  apply count_insert_sorted, IH.
Qed.

Lemma sorted_firstn_skipn {A : Type} (R : A -> A -> Prop) (n : nat) (l : list A) :
  StronglySorted R l ->
  StronglySorted R (firstn n l) /\
  forall x y, In x (firstn n l) -> In y (skipn n l) -> R x y.
Proof.
  intros Hs. revert n. induction Hs as [|a l Hl IH Ha]; intros n.
  - rewrite firstn_nil, skipn_nil. split; [constructor | intros x y []].
  - destruct n as [|n]; cbn [firstn skipn].
    + split; [constructor | intros x y []].
    + destruct (IH n) as [IH1 IH2]. rewrite Forall_forall in Ha. split.
      * constructor; [exact IH1|]. apply Forall_forall. intros z Hz.
        apply Ha. rewrite <- (firstn_skipn n l). apply in_or_app. now left.
      * intros x y [<-|Hx] Hy; [|apply IH2; assumption].
        apply Ha. rewrite <- (firstn_skipn n l). apply in_or_app. now right.
Qed.

(** X15. The first part of the report prints nothing when the histogram
    is empty. Otherwise it prints a title and one line for each of
    [min(5, number of distinct distances)] entries of the histogram, by
    decreasing count: the entries that are left out are the rest of the
    histogram, and none of them has a larger count than an entry that is
    printed. *)
Theorem size_report_lists_most_common (st : stats.t) :
  let shown := most_common 5 (stats.record_sizes st) in
  (stats.record_sizes st = [] -> size_report st = []) /\
  (stats.record_sizes st <> [] ->
   size_report st =
     (newline ++ "Most common distances between potential record starts:")%string ::
     map size_line shown) /\
  List.length shown = Nat.min 5 (List.length (stats.record_sizes st)) /\
  StronglySorted (fun a b => snd b <= snd a) shown /\
  exists omitted,
    Permutation (stats.record_sizes st) (shown ++ omitted) /\
    forall x y, In x shown -> In y omitted -> snd y <= snd x.
Proof.
  intros shown.
  assert (Hshown : shown = firstn 5 (by_count (stats.record_sizes st))).
  { unfold shown, most_common. rewrite py_slice_prefix by lia. reflexivity. }
  assert (Hlen : List.length shown = Nat.min 5 (List.length (stats.record_sizes st))).
  { rewrite Hshown, length_firstn.
    rewrite (Permutation_length (by_count_perm _)). reflexivity. }
  destruct (sorted_firstn_skipn _ 5 _ (by_count_sorted (stats.record_sizes st)))
    as [Hs Hdom].
  split; [|split; [|split; [exact Hlen|split]]].
  - intros E. unfold size_report. fold shown. rewrite Hshown, E. reflexivity.
  - intros Hne. unfold size_report. fold shown.
    destruct shown as [|x l] eqn:E; [|reflexivity].
    cbn [List.length] in Hlen.
    destruct (stats.record_sizes st); [congruence | cbn [List.length] in Hlen; lia].
  - rewrite Hshown. exact Hs.
  - exists (skipn 5 (by_count (stats.record_sizes st))). split.
    + rewrite Hshown, firstn_skipn. symmetry. apply by_count_perm.
    + rewrite Hshown. exact Hdom.
Qed.

(** ** The dump of the header *)

















(** * Instances of the further properties *)






(** The date findings of the file of 78 bytes in chunks of 64. *)
Lemma chunking_dates_two_chunks :
  one_file "family.db" two_chunk_file "family.db"%string = Some two_chunk_file /\
  0 < 64 /\ 64 mod 4 = 0 /\
  exists st,
    analyze_binary_file fromtimestamp_utc (one_file "family.db" two_chunk_file)
                        "family.db" 64 = Some (Ok st) /\
    forall p, In p (stats.date_patterns st) -> fst p mod 4 = 0.
Proof.
  assert (Hfs : one_file "family.db" two_chunk_file "family.db"%string =
                Some two_chunk_file) by reflexivity.
  assert (Hcs : 0 < 64) by reflexivity.
  assert (Hcs4 : 64 mod 4 = 0) by reflexivity.
  split; [exact Hfs|]. split; [exact Hcs|]. split; [exact Hcs4|].
  destruct (chunking_only_loses_dates fromtimestamp_utc _ _ 64 _ Hfs Hcs Hcs4)
    as [st [whole [Hst [_ [H4 _]]]]].
  exists st. split; [exact Hst | exact H4].
Defined.


(** Three bytes: the year alone. *)
Lemma date_scanner_three_bytes :
  let data := [x3a; x07; x00] in
  0 <= 0 /\ len data < 0 + 4 /\
  exists dates,
    find_date_patterns fromtimestamp_utc data 0 = Ok dates /\
    timestamp_findings dates = [].
Proof.
  intros data.
  assert (H0 : 0 <= 0) by lia.
  assert (H4 : len data < 0 + 4) by reflexivity.
  split; [exact H0|]. split; [exact H4|].
  destruct (date_scanner_short_data fromtimestamp_utc data 0 H0 H4)
    as [dates [Hd [_ [Hts _]]]].
  exists dates. split; [exact Hd | exact Hts].
Defined.

(** The position -1 of four bytes. *)
Lemma date_scanner_at_minus_one :
  let data := [x3a; x07; x00; x00] in
  -4 <= -1 < 0 /\ (data <> [] \/ -1 <= -2) /\
  find_date_patterns fromtimestamp_utc data (-1) = Raise StructError.
Proof.
  intros data.
  assert (Hoff : -4 <= -1 < 0) by lia.
  assert (Hd : data <> [] \/ -1 <= -2) by (left; discriminate).
  split; [exact Hoff|]. split; [exact Hd|].
  exact (date_scanner_negative_offset fromtimestamp_utc data (-1) Hoff Hd).
Defined.

(** The four bytes of the integer 1850. *)
Lemma year_and_timestamp_1850 :
  let data := [x3a; x07; x00; x00] in
  0 <= 0 /\ 0 + 4 <= len data /\
  exists dates,
    find_date_patterns fromtimestamp_utc data 0 = Ok dates /\
    u16_at data 0 = u32_at data 0 mod 65536.
Proof.
  intros data.
  assert (H0 : 0 <= 0) by lia.
  assert (H4 : 0 + 4 <= len data) by (vm_compute; discriminate).
  split; [exact H0|]. split; [exact H4|].
  destruct (year_is_low_half_of_timestamp fromtimestamp_utc data 0 H0 H4)
    as [dates [Hd [_ [Hlow _]]]].
  exists dates. split; [exact Hd | exact Hlow].
Defined.

